(** * vex-reader: the product index and the remediation classifier

    A shallow embedding of [vex/package.py]: the lookup of a product name
    ([product_lookup]), the four record classes ([Fix], [WontFix],
    [NotAffected], [Affected]) and the [VexPackages] class that walks the
    product tree and the vulnerability entries of a parsed VEX document.

    Python values are the ones [json.load] produces.  An exception is an
    [Err] result; the line [WontFix.__init__] prints goes to a log of what
    was written to standard output.  A str is the string of its UTF-8
    bytes: cutting a str at [:] or [/] and searching it for a substring
    give the same result on bytes as on characters, and a loop over a str
    runs over its characters, each one a group of bytes. *)

From Stdlib Require Import String Ascii List ZArith Bool Arith Lia.
Import ListNotations.
Local Open Scope string_scope.
Local Open Scope list_scope.

(** ** Python values *)

(** What [json.load] returns: [None], a bool, an int, a float, a str, a list
    or a dict with str keys.  A dict keeps its keys in insertion order and
    holds one binding per key; a float is kept as its binary64 bit pattern
    (the code never computes with one). *)
#[local] Unset Elimination Schemes.
Inductive value : Type :=
| VNone
| VBool (b : bool)
| VInt (n : Z)
| VFloat (bits : Z)
| VStr (s : string)
| VList (l : list value)
| VDict (d : list (string * value)).
#[local] Set Elimination Schemes.

(** The exceptions the code can raise. *)
Inductive exn : Type :=
  KeyError | TypeError | ValueError | AttributeError | IndexError.

Inductive result (A : Type) : Type :=
| Ok (a : A)
| Err (e : exn).
Arguments Ok {A} a.
Arguments Err {A} e.

Definition rbind {A B} (r : result A) (f : A -> result B) : result B :=
  match r with
  | Ok a => f a
  | Err e => Err e
  end.

Declare Scope result_scope.
Delimit Scope result_scope with result.
Notation "x <- r ; k" := (rbind r (fun x => k))
  (at level 100, r at next level, right associativity) : result_scope.
Local Open Scope result_scope.

Definition is_err {A} (r : result A) : Prop :=
  match r with
  | Ok _ => False
  | Err _ => True
  end.

(** A [for] loop over a list whose body updates a local state and may raise. *)
Fixpoint for_each {A S} (l : list A) (body : A -> S -> result S) (s : S)
  : result S :=
  match l with
  | [] => Ok s
  | a :: l' => s' <- body a s; for_each l' body s'
  end.

(** ** Strings *)

(** [s.split(sep)] for a one-character separator: one more segment than
    there are separators, so never an empty list. *)
Fixpoint split (sep : ascii) (s : string) : list string :=
  match s with
  | EmptyString => [EmptyString]
  | String c s' =>
      if Ascii.eqb c sep then EmptyString :: split sep s'
      else match split sep s' with
           | [] => [String c EmptyString]
           | seg :: segs => String c seg :: segs
           end
  end.

(** [sub in s] for two strs. *)
Fixpoint substring_of (sub s : string) : bool :=
  if String.prefix sub s then true
  else match s with
       | EmptyString => false
       | String _ s' => substring_of sub s'
       end.

(** [c in s] for a character: used to say that a segment holds no separator. *)
Fixpoint has_char (c : ascii) (s : string) : bool :=
  match s with
  | EmptyString => false
  | String a s' => Ascii.eqb a c || has_char c s'
  end.

Definition colon : ascii := ":"%char.
Definition slash : ascii := "/"%char.

(** ** Operations on values *)

Fixpoint lookup (k : string) (d : list (string * value)) : option value :=
  match d with
  | [] => None
  | (k', v) :: d' => if String.eqb k k' then Some v else lookup k d'
  end.

(** [o[k]] for a str key [k]. *)
Definition getitem (o : value) (k : string) : result value :=
  match o with
  | VDict d => match lookup k d with
               | Some v => Ok v
               | None => Err KeyError
               end
  | _ => Err TypeError
  end.

(** [v == s] for a str literal [s]. *)
Definition eq_str (v : value) (s : string) : bool :=
  match v with
  | VStr t => String.eqb t s
  | _ => false
  end.

(** [o.keys()]: only a dict has the method. *)
Definition keys (o : value) : result (list string) :=
  match o with
  | VDict d => Ok (map fst d)
  | _ => Err AttributeError
  end.

Definition mem (k : string) (ks : list string) : bool :=
  existsb (String.eqb k) ks.

(** [k in o] for a str [k]: a key of a dict, an element of a list, a
    substring of a str; anything else is not iterable. *)
Definition contains (k : string) (o : value) : result bool :=
  match o with
  | VDict d => Ok (mem k (map fst d))
  | VList l => Ok (existsb (fun v => eq_str v k) l)
  | VStr s => Ok (substring_of k s)
  | _ => Err TypeError
  end.

(** The characters of a str.  A str is kept as its UTF-8 bytes, and a
    character is a lead byte with the continuation bytes (10xxxxxx, that is
    128 to 191) that follow it.  [characters_from] reads from the right: it
    returns the continuation bytes still waiting for their lead byte and the
    characters after them. *)
Definition is_continuation (c : ascii) : bool :=
  (128 <=? nat_of_ascii c)%nat && (nat_of_ascii c <? 192)%nat.

Fixpoint characters_from (s : string) : string * list string :=
  match s with
  | EmptyString => (EmptyString, [])
  | String c s' =>
      let (pending, cs) := characters_from s' in
      if is_continuation c then (String c pending, cs)
      else (EmptyString, String c pending :: cs)
  end.

Definition characters (s : string) : list string :=
  match characters_from s with
  | (EmptyString, cs) => cs
  | (pending, cs) => pending :: cs
  end.

(** What [for x in o] runs over: the elements of a list, the keys of a dict,
    the characters of a str. *)
Definition iter (o : value) : result (list value) :=
  match o with
  | VList l => Ok l
  | VDict d => Ok (map (fun kv => VStr (fst kv)) d)
  | VStr s => Ok (map VStr (characters s))
  | _ => Err TypeError
  end.

(** [y.split(':')]: only a str has the method. *)
Definition split_value (sep : ascii) (y : value) : result (list string) :=
  match y with
  | VStr s => Ok (split sep s)
  | _ => Err AttributeError
  end.

(** A list or a dict cannot be the key of a dict. *)
Definition hashable (v : value) : bool :=
  match v with
  | VList _ | VDict _ => false
  | _ => true
  end.

(** ** The product index *)

(** [pmap] is a list of one-entry dicts [{id: name}]; an entry is kept as
    the pair of its key and its value. *)
Definition pmap_t : Type := list (value * value).

(** [{id: name}] *)
Definition entry (id name : value) : result (value * value) :=
  if hashable id then Ok (id, name) else Err TypeError.

(** [product_lookup(product, pmap)]: the name under the first entry whose key
    is [product]; falling off the end of the loop returns [None]. *)
Fixpoint product_lookup (product : string) (pmap : pmap_t) : value :=
  match pmap with
  | [] => VNone
  | (id, name) :: pmap' =>
      if eq_str id product then name else product_lookup product pmap'
  end.

(** ** Standard output *)

(** A computation that may also print: its result and the lines it wrote, in
    order.  What was printed before an exception stays printed. *)
Definition M (A : Type) : Type := (result A * list string)%type.

Definition ret {A} (a : A) : M A := (Ok a, []).
Definition lift {A} (r : result A) : M A := (r, []).
Definition print (line : string) : M unit := (Ok tt, [line]).

Definition bind {A B} (m : M A) (f : A -> M B) : M B :=
  match m with
  | (Ok a, out) => let (r, out') := f a in (r, out ++ out')
  | (Err e, out) => (Err e, out)
  end.

Notation "x <<- m ; k" := (bind m (fun x => k))
  (at level 100, m at next level, right associativity) : result_scope.

Fixpoint for_eachM {A S} (l : list A) (body : A -> S -> M S) (s : S) : M S :=
  match l with
  | [] => ret s
  | a :: l' => s' <<- body a s; for_eachM l' body s'
  end.

(** ** The record classes *)

(** An attribute that [__init__] may leave unset is an [option]: reading it
    when it is [None] raises AttributeError. *)
Definition getattr {A} (field : option A) : result A :=
  match field with
  | Some a => Ok a
  | None => Err AttributeError
  end.

Record Fix : Type := mkFix {
  Fix_id : value;
  Fix_url : value;
  Fix_components : list string;
  Fix_vendor : option string;
  Fix_product : option value
}.

Record WontFix : Type := mkWontFix {
  WontFix_reason : value;
  WontFix_component : string;
  WontFix_product : value
}.

Record NotAffected : Type := mkNotAffected {
  NotAffected_components : list string;
  NotAffected_product : value
}.

Record Affected : Type := mkAffected {
  Affected_components : list string;
  Affected_product : value
}.

(** The dict [{'details': ..., 'packages': ...}] kept for a workaround. *)
Record Workaround : Type := mkWorkaround {
  Workaround_details : value;
  Workaround_packages : list value
}.

Record VexPackages : Type := mkVexPackages {
  raw : value;
  pmap : pmap_t;
  fixes : list Fix;
  workarounds : list Workaround;
  wontfix : list WontFix;
  affected : list Affected;
  not_affected : list NotAffected
}.

Definition set_raw (self : VexPackages) (v : value) : VexPackages :=
  mkVexPackages v (pmap self) (fixes self) (workarounds self) (wontfix self)
    (affected self) (not_affected self).
Definition set_pmap (self : VexPackages) (p : pmap_t) : VexPackages :=
  mkVexPackages (raw self) p (fixes self) (workarounds self) (wontfix self)
    (affected self) (not_affected self).
Definition add_fix (self : VexPackages) (f : Fix) : VexPackages :=
  mkVexPackages (raw self) (pmap self) (fixes self ++ [f]) (workarounds self)
    (wontfix self) (affected self) (not_affected self).
Definition add_workaround (self : VexPackages) (w : Workaround) : VexPackages :=
  mkVexPackages (raw self) (pmap self) (fixes self) (workarounds self ++ [w])
    (wontfix self) (affected self) (not_affected self).
Definition add_wontfix (self : VexPackages) (w : WontFix) : VexPackages :=
  mkVexPackages (raw self) (pmap self) (fixes self) (workarounds self)
    (wontfix self ++ [w]) (affected self) (not_affected self).
Definition add_affected (self : VexPackages) (a : Affected) : VexPackages :=
  mkVexPackages (raw self) (pmap self) (fixes self) (workarounds self)
    (wontfix self) (affected self ++ [a]) (not_affected self).
Definition add_not_affected (self : VexPackages) (a : NotAffected) : VexPackages :=
  mkVexPackages (raw self) (pmap self) (fixes self) (workarounds self)
    (wontfix self) (affected self) (not_affected self ++ [a]).
(** The five assignments that open [parse_packages]. *)
Definition clear_buckets (self : VexPackages) : VexPackages :=
  mkVexPackages (raw self) (pmap self) [] [] [] [] [].

Fixpoint assoc (k : string) (d : list (string * string)) : option string :=
  match d with
  | [] => None
  | (k', v) :: d' => if String.eqb k k' then Some v else assoc k d'
  end.

(** The object after [ws] has been appended to [self.wontfix], one record
    at a time. *)
Definition extend_wontfix (self : VexPackages) (ws : list WontFix) : VexPackages :=
  mkVexPackages (raw self) (pmap self) (fixes self) (workarounds self)
    (wontfix self ++ ws) (affected self) (not_affected self).

(** The [WontFix] record of an identifier: the identifier is a product id
    and a component around one colon, the reason is the remediation's
    [details], the product is what the index gives for the id. *)
Definition wontfix_of (details : value) (pm : pmap_t) (y : value) (w : WontFix)
  : Prop :=
  exists p c : string,
    y = VStr (p ++ ":" ++ c) /\
    has_char colon p = false /\ has_char colon c = false /\
    w = mkWontFix details c (product_lookup p pm).

(** The component a [Fix] record keeps for an identifier: the identifier is
    a product id, a component and a version around two colons, and what is
    kept is the component and the version around their colon. *)
Definition fix_component_of (y : value) (comp : string) : Prop :=
  exists p c v : string,
    y = VStr (p ++ ":" ++ c ++ ":" ++ v) /\
    has_char colon p = false /\ has_char colon c = false /\
    has_char colon v = false /\ comp = (c ++ ":" ++ v)%string.

(** The advisory id read off a URL for a marker and its vendor. *)
Definition advisory_id (marker vendor url : string) : string :=
  let id := last (split slash url) "" in
  if String.eqb vendor "Gentoo" then (marker ++ "-" ++ id)%string else id.

(** ** Sample instances of the two imported names, and sample documents *)

(** A filter that keeps every identifier but those of source packages. *)
Definition sample_filter (ids : value) : result (list value) :=
  l <- iter ids;
  Ok (filter (fun y => match y with
                       | VStr s => negb (substring_of ".src" s)
                       | _ => true
                       end) l).

Definition sample_VENDOR_ADVISORY : list (string * string) :=
  [("RHSA", "Red Hat"); ("GLSA", "Gentoo")].

(** An object no method has run on yet. *)
Definition blank : VexPackages := mkVexPackages VNone [] [] [] [] [] [].

Definition widget_leaf : value :=
  VDict [("category", VStr "product_name"); ("name", VStr "Widget 1.0");
         ("product", VDict [("product_id", VStr "WID1")])].

(** One branch, one sub-branch, one leaf: the leaf is three levels down. *)
Definition widget_tree : value :=
  VDict [("branches",
          VList [VDict [("branches",
                         VList [VDict [("branches", VList [widget_leaf])]])]])].

(** The same leaf two levels down. *)
Definition shallow_tree : value :=
  VDict [("branches", VList [VDict [("branches", VList [widget_leaf])]])].

Definition doc_of (tree : value) (vulnerabilities : list value) : value :=
  VDict [("product_tree", tree); ("vulnerabilities", VList vulnerabilities)].

(** An object whose index holds the one product of [widget_tree]. *)
Definition widget_pmap : pmap_t := [(VStr "WID1", VStr "Widget 1.0")].
Definition indexed : VexPackages := set_pmap blank widget_pmap.

Definition no_fix_remediation : value :=
  VDict [("category", VStr "no_fix_planned");
         ("details", VStr "Out of support scope");
         ("product_ids", VList [VStr "WID1:widget"; VStr "UNKNOWN:pkg"])].

Definition fix_remediation : value :=
  VDict [("category", VStr "vendor_fix");
         ("url", VStr "https://access.redhat.com/errata/RHSA-2024-0001");
         ("product_ids", VList [VStr "WID1:widget:1.0-2.el9"])].

(** A [vendor_fix] whose URL holds no marker of [sample_VENDOR_ADVISORY]. *)
Definition unmarked_remediation : value :=
  VDict [("category", VStr "vendor_fix");
         ("url", VStr "https://example.org/advisories/ADV-1");
         ("product_ids", VList [VStr "WID1:widget:1.0-2.el9"])].

(** A [vendor_fix] whose identifiers are of two products. *)
Definition two_product_remediation : value :=
  VDict [("category", VStr "vendor_fix");
         ("url", VStr "https://access.redhat.com/errata/RHSA-2024-0002");
         ("product_ids",
          VList [VStr "WID1:widget:1.0-2.el9"; VStr "GAD2:gadget:2.1-1.el9"])].

Definition two_product_pmap : pmap_t :=
  [(VStr "WID1", VStr "Widget 1.0"); (VStr "GAD2", VStr "Gadget 2")].

(** A document whose one vulnerability lists a one-segment identifier as
    known affected. *)
Definition one_segment_doc : value :=
  doc_of widget_tree
    [VDict [("product_status", VDict [("known_affected", VList [VStr "foo"])])]].

(** A document whose [no_fix_planned] remediation lists a one-segment
    identifier. *)
Definition one_segment_remediation : value :=
  VDict [("category", VStr "no_fix_planned");
         ("details", VStr "Out of support scope");
         ("product_ids", VList [VStr "WID1:widget"; VStr "foo"])].
Definition one_segment_remediation_doc : value :=
  doc_of widget_tree
    [VDict [("remediations", VList [one_segment_remediation])]].

(** A document whose [no_fix_planned] remediation lists an identifier of
    three segments. *)
Definition three_segment_no_fix_doc : value :=
  doc_of widget_tree
    [VDict [("remediations",
             VList [VDict [("category", VStr "no_fix_planned");
                           ("details", VStr "Out of support scope");
                           ("product_ids", VList [VStr "p:c:v"])]])]].

(** A document whose [vendor_fix] remediation lists an identifier of four
    segments. *)
Definition four_segment_fix_doc : value :=
  doc_of widget_tree
    [VDict [("remediations",
             VList [VDict [("category", VStr "vendor_fix");
                           ("url", VStr "https://access.redhat.com/errata/RHSA-2024-0001");
                           ("product_ids", VList [VStr "p:c:v:extra"])]])]].

(** A product tree whose one branch is the product itself and so has no
    [branches] of its own. *)
Definition flat_branch_doc : value :=
  doc_of (VDict [("branches", VList [widget_leaf])]) [].

(** A product tree whose one sub-branch has no [branches], and a
    vulnerability with neither [remediations] nor [product_status]. *)
Definition no_sections_doc : value :=
  doc_of (VDict [("branches",
                  VList [VDict [("branches",
                                 VList [VDict [("category", VStr "architecture");
                                               ("name", VStr "x86_64")]])]])])
    [VDict [("cve", VStr "CVE-2024-0001")]].

(** Further sample documents. *)

Definition gadget_leaf : value :=
  VDict [("category", VStr "product_name"); ("name", VStr "Gadget 2");
         ("product", VDict [("product_id", VStr "GAD2")])].

(** A second leaf under the id of [widget_leaf]. *)
Definition renamed_leaf : value :=
  VDict [("category", VStr "product_name"); ("name", VStr "Widget 1.0 EUS");
         ("product", VDict [("product_id", VStr "WID1")])].

Definition twin_tree : value :=
  VDict [("branches",
          VList [VDict [("branches",
                         VList [VDict [("branches",
                                        VList [gadget_leaf; widget_leaf;
                                               renamed_leaf])]])]])].

(** A leaf tagged [product_name] that has a name and no [product]. *)
Definition bare_leaf : value :=
  VDict [("category", VStr "product_name"); ("name", VStr "Widget 1.0")].

Definition bare_tree : value :=
  VDict [("branches",
          VList [VDict [("branches",
                         VList [VDict [("branches",
                                        VList [widget_leaf; bare_leaf])]])]])].

Definition mitigation_remediation : value :=
  VDict [("category", VStr "mitigation");
         ("details", VStr "Disable the service");
         ("product_ids", VList [VStr "WID1:widget"])].

Definition workaround_remediation : value :=
  VDict [("category", VStr "workaround");
         ("details", VStr "Disable the service");
         ("product_ids", VList [VStr "WID1:widget"; VStr "not an identifier"])].

Definition status_vulnerability : value :=
  VDict [("product_status",
          VDict [("known_affected", VList [VStr "WID1:widget:1.0"; VStr "foo"]);
                 ("known_not_affected", VList [VStr "GAD2:gadget:rhel8/tool"])])].

Definition fixed_only_vulnerability : list (string * value) :=
  [("cve", VStr "CVE-2024-0001");
   ("product_status", VDict [("fixed", VList [VStr "WID1:widget:1.0-2.el9"])])].

Definition mixed_vulnerability : value :=
  VDict [("remediations", VList [fix_remediation; no_fix_remediation]);
         ("product_status",
          VDict [("known_affected", VList [VStr "WID1:widget:1.0"])])].

Definition mixed_fix_remediation : value :=
  VDict [("category", VStr "vendor_fix");
         ("url", VStr "https://access.redhat.com/errata/RHSA-2024-0001");
         ("product_ids",
          VList [VStr "WID1:widget:1.0-2.el9"; VStr "p:c:v:extra"])].

(** Documents that list the identifier [UNKNOWN:pkg:1.0], whose product id
    is not in the index of [widget_tree]: under a [no_fix_planned]
    remediation, under both product status keys, and under a [vendor_fix]
    remediation; and one that lists [UNKNOWN:pkg] under a [no_fix_planned]
    remediation. *)
Definition unknown_no_fix_doc : value :=
  doc_of widget_tree
    [VDict [("remediations",
             VList [VDict [("category", VStr "no_fix_planned");
                           ("details", VStr "Out of support scope");
                           ("product_ids", VList [VStr "UNKNOWN:pkg:1.0"])]])]].

Definition unknown_status_doc : value :=
  doc_of widget_tree
    [VDict [("product_status",
             VDict [("known_affected", VList [VStr "UNKNOWN:pkg:1.0"]);
                    ("known_not_affected", VList [VStr "UNKNOWN:pkg:1.0"])])]].

Definition unknown_fix_doc : value :=
  doc_of widget_tree
    [VDict [("remediations",
             VList [VDict [("category", VStr "vendor_fix");
                           ("url", VStr "https://access.redhat.com/errata/RHSA-2024-0001");
                           ("product_ids", VList [VStr "UNKNOWN:pkg:1.0"])]])]].

Definition unknown_two_segment_no_fix_doc : value :=
  doc_of widget_tree
    [VDict [("remediations",
             VList [VDict [("category", VStr "no_fix_planned");
                           ("details", VStr "Out of support scope");
                           ("product_ids", VList [VStr "UNKNOWN:pkg"])]])]].

(** A [no_fix_planned] remediation whose second identifier has three
    segments. *)
Definition mixed_no_fix_remediation : value :=
  VDict [("category", VStr "no_fix_planned");
         ("details", VStr "Out of support scope");
         ("product_ids", VList [VStr "WID1:widget"; VStr "UNKNOWN:pkg:1.0"])].

(** A [vendor_fix] whose URL holds no marker of [sample_VENDOR_ADVISORY]
    and whose one identifier has two segments. *)
Definition two_segment_unmarked_remediation : value :=
  VDict [("category", VStr "vendor_fix");
         ("url", VStr "https://example.org/advisories/ADV-1");
         ("product_ids", VList [VStr "WID1:widget"])].

Definition remediation_doc (x : value) : value :=
  doc_of widget_tree [VDict [("remediations", VList [x])]].

(** ** The shape of a product tree *)

(** The nodes one [branches] level below a node: none when the key is
    missing or what it holds cannot be iterated. *)
Definition children (n : value) : list value :=
  match getitem n "branches" with
  | Ok bs => match iter bs with
             | Ok l => l
             | Err _ => []
             end
  | Err _ => []
  end.

(** The nodes [d] levels below a node, in document order. *)
Fixpoint nodes_at_depth (d : nat) (n : value) : list value :=
  match d with
  | O => [n]
  | S d' => flat_map (nodes_at_depth d') (children n)
  end.

(** A node tagged [product_name]. *)
Definition is_product_name (c : value) : bool :=
  match getitem c "category" with
  | Ok cat => eq_str cat "product_name"
  | Err _ => false
  end.

(** The (product_id, name) pair a node declares, when it declares one. *)
Definition entry_of (c : value) : option (value * value) :=
  match getitem c "name", getitem c "product" with
  | Ok name, Ok product =>
      match getitem product "product_id" with
      | Ok id => Some (id, name)
      | Err _ => None
      end
  | _, _ => None
  end.

(** The index entries of the [product_name] nodes of a list of nodes. *)
Definition entries_of (cs : list value) : list (option (value * value)) :=
  map entry_of (filter is_product_name cs).

(** Shapes on which the walk of [build_product_tree] raises nothing: a leaf
    is a dict and, when tagged [product_name], has a name and a hashable
    product id; a sub-branch is a dict whose [branches], when present, is a
    list of such leaves; a branch holds a list of such sub-branches. *)
Definition leaf_ok (c : value) : bool :=
  match c with
  | VDict _ =>
      if is_product_name c then
        match entry_of c with
        | Some (id, _) => hashable id
        | None => false
        end
      else true
  | _ => false
  end.

Definition branch_ok (b : value) : bool :=
  match b with
  | VDict d =>
      match lookup "branches" d with
      | None => true
      | Some (VList cs) => forallb leaf_ok cs
      | Some _ => false
      end
  | _ => false
  end.

Definition top_ok (p : value) : bool :=
  match getitem p "branches" with
  | Ok (VList bl) => forallb branch_ok bl
  | _ => false
  end.

Definition tree_ok (tree : value) : bool :=
  match getitem tree "branches" with
  | Ok (VList ps) => forallb top_ok ps
  | _ => false
  end.

(** A computation that ends in an exception. *)
Definition fails {A} (m : M A) : Prop := is_err (fst m).

(** ** The program *)

Section Package.

(** [vex/constants.py] is imported by [package.py] and supplies two names.
    [filter_components] takes the list of composite identifiers of a
    section and returns the list of those it keeps (or raises);
    [VENDOR_ADVISORY] is a dict from a marker string found in advisory
    URLs to the vendor's name.  Both are parameters of the development. *)
Variable filter_components : value -> result (list value).
Variable VENDOR_ADVISORY : list (string * string).

(** The body of [for v in VENDOR_ADVISORY] in [Fix.__init__]. *)
Definition Fix_vendor_step (v : string) (self : Fix) : result Fix :=
  hit <- contains v (Fix_url self);
  if hit : bool then
    segs <- split_value slash (Fix_url self);
    let id := last segs "" in
    match assoc v VENDOR_ADVISORY with
    | None => Err KeyError
    | Some vendor =>
        let id := if String.eqb vendor "Gentoo" then (v ++ "-" ++ id)%string else id in
        Ok (mkFix (VStr id) (Fix_url self) (Fix_components self)
              (Some vendor) (Fix_product self))
    end
  else Ok self.

(** The body of [for y in filter_components(x['product_ids'])]. *)
Definition Fix_component_step (pmap : pmap_t) (y : value) (self : Fix)
  : result Fix :=
  segs <- split_value colon y;
  match segs with
  | [product; component; version] =>
      Ok (mkFix (Fix_id self) (Fix_url self)
            (Fix_components self ++ [String.concat ":" [component; version]])
            (Fix_vendor self) (Some (product_lookup product pmap)))
  | _ => Err ValueError
  end.

(** [Fix.__init__(self, x, pmap)] *)
Definition Fix_init (x : value) (pmap : pmap_t) : result Fix :=
  url <- getitem x "url";
  let self := mkFix VNone url [] None None in
  self <- for_each (map fst VENDOR_ADVISORY) Fix_vendor_step self;
  ids <- getitem x "product_ids";
  ys <- filter_components ids;
  for_each ys (Fix_component_step pmap) self.

(** [WontFix.__init__(self, y, x, pmap)] *)
Definition WontFix_init (y x : value) (pmap : pmap_t) : M WontFix :=
  _ <<- print "----hit----";
  reason <<- lift (getitem x "details");
  segs <<- lift (split_value colon y);
  match segs with
  | [product; component] =>
      ret (mkWontFix reason component (product_lookup product pmap))
  | _ => lift (Err ValueError)
  end.

(** [NotAffected.__init__(self, y, pmap)] *)
Definition NotAffected_init (y : value) (pmap : pmap_t) : result NotAffected :=
  t <- split_value colon y;
  match t with
  | [] => Err IndexError
  | product :: rest =>
      Ok (mkNotAffected ([] ++ [String.concat ":" rest])
            (product_lookup product pmap))
  end.

(** [Affected.__init__(self, y, pmap)] *)
Definition Affected_init (y : value) (pmap : pmap_t) : result Affected :=
  t <- split_value colon y;
  match t with
  | [] => Err IndexError
  | product :: rest =>
      Ok (mkAffected ([] ++ [String.concat ":" rest])
            (product_lookup product pmap))
  end.

(** *** [VexPackages.build_product_tree] *)

(** The body of [for c in b['branches']]; the state is [self.pmap]. *)
Definition leaf_step (c : value) (pm : pmap_t) : result pmap_t :=
  ks <- keys c;
  if mem "category" ks then
    cat <- getitem c "category";
    if eq_str cat "product_name" then
      name <- getitem c "name";
      product <- getitem c "product";
      id <- getitem product "product_id";
      e <- entry id name;
      Ok (pm ++ [e])
    else Ok pm
  else Ok pm.

(** The body of [for b in p['branches']]. *)
Definition branch_step (b : value) (pm : pmap_t) : result pmap_t :=
  ks <- keys b;
  if mem "branches" ks then
    bs <- getitem b "branches";
    cs <- iter bs;
    for_each cs leaf_step pm
  else Ok pm.

(** The body of [for p in self.raw['product_tree']['branches']]. *)
Definition top_step (p : value) (pm : pmap_t) : result pmap_t :=
  bs <- getitem p "branches";
  bl <- iter bs;
  for_each bl branch_step pm.

Definition build_product_tree (self : VexPackages) : result VexPackages :=
  let self := set_pmap self [] in
  tree <- getitem (raw self) "product_tree";
  bs <- getitem tree "branches";
  ps <- iter bs;
  pm <- for_each ps top_step (pmap self);
  Ok (set_pmap self pm).

(** *** [VexPackages.parse_packages] *)

(** [self.wontfix.append(WontFix(y, x, self.pmap))], the body of
    [for y in (x['product_ids'])]. *)
Definition wontfix_step (x y : value) (self : VexPackages) : M VexPackages :=
  w <<- WontFix_init y x (pmap self);
  ret (add_wontfix self w).

(** [self.affected.append(Affected(y, self.pmap))] *)
Definition affected_step (y : value) (self : VexPackages) : M VexPackages :=
  a <<- lift (Affected_init y (pmap self));
  ret (add_affected self a).

(** [self.not_affected.append(NotAffected(y, self.pmap))] *)
Definition not_affected_step (y : value) (self : VexPackages) : M VexPackages :=
  a <<- lift (NotAffected_init y (pmap self));
  ret (add_not_affected self a).

(** The body of [for x in k['remediations']]: three [if]s in a row, each
    reading [x['category']] again. *)
Definition remediation_step (x : value) (self : VexPackages) : M VexPackages :=
  cat <<- lift (getitem x "category");
  self <<- (if eq_str cat "vendor_fix" then
              f <<- lift (Fix_init x (pmap self));
              ret (add_fix self f)
            else ret self);
  cat <<- lift (getitem x "category");
  self <<- (if eq_str cat "workaround" then
              wa_details <<- lift (getitem x "details");
              ids <<- lift (getitem x "product_ids");
              w_pkgs <<- lift (filter_components ids);
              ret (add_workaround self (mkWorkaround wa_details w_pkgs))
            else ret self);
  cat <<- lift (getitem x "category");
  if eq_str cat "no_fix_planned" then
    ids <<- lift (getitem x "product_ids");
    ys <<- lift (iter ids);
    for_eachM ys (wontfix_step x) self
  else ret self.

(** The body of [for x in k['product_status']]. *)
Definition status_step (k x : value) (self : VexPackages) : M VexPackages :=
  self <<- (if eq_str x "known_affected" then
              ps <<- lift (getitem k "product_status");
              ids <<- lift (getitem ps "known_affected");
              ys <<- lift (filter_components ids);
              for_eachM ys affected_step self
            else ret self);
  if eq_str x "known_not_affected" then
    ps <<- lift (getitem k "product_status");
    ids <<- lift (getitem ps "known_not_affected");
    ys <<- lift (filter_components ids);
    for_eachM ys not_affected_step self
  else ret self.

(** The body of [for k in self.raw['vulnerabilities']]. *)
Definition vulnerability_step (k : value) (self : VexPackages) : M VexPackages :=
  has <<- lift (contains "remediations" k);
  self <<- (if has : bool then
              rs <<- lift (getitem k "remediations");
              xs <<- lift (iter rs);
              for_eachM xs remediation_step self
            else ret self);
  has <<- lift (contains "product_status" k);
  if has : bool then
    ps <<- lift (getitem k "product_status");
    xs <<- lift (iter ps);
    for_eachM xs (status_step k) self
  else ret self.

Definition parse_packages (self : VexPackages) : M VexPackages :=
  let self := clear_buckets self in
  vs <<- lift (getitem (raw self) "vulnerabilities");
  ks <<- lift (iter vs);
  for_eachM ks vulnerability_step self.

(** [VexPackages.__init__(self, vexdata)]: [self] is the object being
    initialised. *)
Definition VexPackages_init (self : VexPackages) (vexdata : value)
  : M VexPackages :=
  let self := set_raw self vexdata in
  self <<- lift (build_product_tree self);
  parse_packages self.


(** *** Identifiers a remediation hands to a record class *)

(** [s] is listed by the [no_fix_planned] remediation [x], or is among the
    identifiers the filter keeps of the [vendor_fix] remediation [x]. *)
Definition handled_by_remediation (x : value) (s : string) : Prop :=
  (getitem x "category" = Ok (VStr "no_fix_planned") /\
   exists ys, getitem x "product_ids" = Ok (VList ys) /\ In (VStr s) ys) \/
  (getitem x "category" = Ok (VStr "vendor_fix") /\
   exists ids ys, getitem x "product_ids" = Ok ids /\
                  filter_components ids = Ok ys /\ In (VStr s) ys).

(** *** What the loops of [parse_packages] build *)

(** The object after [rs] has been appended to [self.affected], and to
    [self.not_affected]. *)
Definition extend_affected (self : VexPackages) (rs : list Affected)
  : VexPackages :=
  mkVexPackages (raw self) (pmap self) (fixes self) (workarounds self)
    (wontfix self) (affected self ++ rs) (not_affected self).

Definition extend_not_affected (self : VexPackages) (rs : list NotAffected)
  : VexPackages :=
  mkVexPackages (raw self) (pmap self) (fixes self) (workarounds self)
    (wontfix self) (affected self) (not_affected self ++ rs).

(** [s] cut at its first colon: [p] is what stands before it and [rest]
    what stands after it; a str with no colon is all [p], with nothing
    after. *)
Definition first_colon_cut (s p rest : string) : Prop :=
  has_char colon p = false /\
  (s = (p ++ ":" ++ rest)%string \/ (s = p /\ rest = "")).

(** The record of an identifier listed as known affected, and as known not
    affected: the identifier is a str, the one component of the record is
    what follows its first colon, the product is what the index gives for
    what precedes it. *)
Definition affected_of (pm : pmap_t) (y : value) (a : Affected) : Prop :=
  exists s p rest : string,
    y = VStr s /\ first_colon_cut s p rest /\
    a = mkAffected [rest] (product_lookup p pm).

Definition not_affected_of (pm : pmap_t) (y : value) (a : NotAffected) : Prop :=
  exists s p rest : string,
    y = VStr s /\ first_colon_cut s p rest /\
    a = mkNotAffected [rest] (product_lookup p pm).

(** From [self] to [self'] the document and the index are the same and
    each bucket has only had records appended; [out] is one printed line
    for each record appended to [wontfix]. *)
Definition grows (self self' : VexPackages) (out : list string) : Prop :=
  raw self' = raw self /\ pmap self' = pmap self /\
  exists (fs : list Fix) (was : list Workaround) (wfs : list WontFix)
         (afs : list Affected) (nfs : list NotAffected),
    fixes self' = fixes self ++ fs /\
    workarounds self' = workarounds self ++ was /\
    wontfix self' = wontfix self ++ wfs /\
    affected self' = affected self ++ afs /\
    not_affected self' = not_affected self ++ nfs /\
    out = repeat "----hit----" (length wfs).

(** A node tagged [product_name] from which no index entry can be made: a
    key of the entry is missing, or the product id cannot be a dict key. *)
Definition no_entry (c : value) : Prop :=
  is_product_name c = true /\
  match entry_of c with
  | None => True
  | Some (id, _) => hashable id = false
  end.

(** * Facts about strings *)

Lemma split_not_nil (sep : ascii) (s : string) : split sep s <> [].
Proof.
  induction s as [|c s IH]; simpl; [discriminate|].
  destruct (Ascii.eqb c sep); [discriminate|].
  destruct (split sep s); discriminate.
Qed.

Lemma split_no_sep (sep : ascii) (s : string) :
  has_char sep s = false -> split sep s = [s].
Proof.
  induction s as [|c s IH]; simpl; intros H; [reflexivity|].
  apply orb_false_iff in H as [Hc Hs].
  rewrite Hc, (IH Hs). reflexivity.
Qed.

Lemma split_app_sep (sep : ascii) (p rest : string) :
  has_char sep p = false ->
  split sep (p ++ String sep rest)%string = p :: split sep rest.
Proof.
  induction p as [|c p IH]; simpl; intros H.
  - rewrite Ascii.eqb_refl. reflexivity.
  - apply orb_false_iff in H as [Hc Hp].
    rewrite Hc, (IH Hp). reflexivity.
Qed.

Lemma split_segments_no_sep (sep : ascii) (s : string) :
  Forall (fun seg => has_char sep seg = false) (split sep s).
Proof.
  induction s as [|c s IH]; simpl.
  - constructor; [reflexivity|constructor].
  - destruct (Ascii.eqb c sep) eqn:E.
    + constructor; [reflexivity|exact IH].
    + destruct (split sep s) as [|seg segs]; inversion IH; subst.
      * constructor; [simpl; rewrite E; reflexivity|constructor].
      * constructor; [simpl; rewrite E|]; assumption.
Qed.

Lemma concat_split (sep : ascii) (s : string) :
  String.concat (String sep EmptyString) (split sep s) = s.
Proof.
  induction s as [|c s IH]; simpl; [reflexivity|].
  destruct (Ascii.eqb c sep) eqn:E.
  - apply Ascii.eqb_eq in E; subst c.
    pose proof (split_not_nil sep s) as Hne.
    destruct (split sep s) as [|seg segs]; [contradiction|].
    simpl in *. rewrite IH. reflexivity.
  - destruct (split sep s) as [|seg segs] eqn:Es.
    + exfalso. eapply split_not_nil; eassumption.
    + destruct segs; simpl in *; rewrite <- IH; reflexivity.
Qed.

(** A str that splits in two is its two segments around one separator. *)
Lemma split_two (sep : ascii) (s p c : string) :
  split sep s = [p; c] ->
  s = (p ++ String sep c)%string /\
  has_char sep p = false /\ has_char sep c = false.
Proof.
  intros H.
  pose proof (concat_split sep s) as Hc.
  pose proof (split_segments_no_sep sep s) as Hf.
  rewrite H in Hc, Hf. simpl in Hc.
  inversion Hf as [|? ? Hp Hf']; subst. inversion Hf' as [|? ? Hcc _]; subst.
  repeat split; auto.
Qed.

(** A str that splits in three is its three segments around two
    separators. *)
Lemma split_three (sep : ascii) (s p c v : string) :
  split sep s = [p; c; v] ->
  s = (p ++ String sep (c ++ String sep v))%string /\
  has_char sep p = false /\ has_char sep c = false /\ has_char sep v = false.
Proof.
  intros H.
  pose proof (concat_split sep s) as Hc.
  pose proof (split_segments_no_sep sep s) as Hf.
  rewrite H in Hc, Hf. simpl in Hc.
  inversion Hf as [|? ? Hp Hf']; subst. inversion Hf' as [|? ? Hcc Hf'']; subst.
  inversion Hf'' as [|? ? Hv _]; subst.
  repeat split; auto.
Qed.

(** * Facts about loops and effects *)

Lemma for_each_app {A S} (l1 l2 : list A) (body : A -> S -> result S) (s : S) :
  for_each (l1 ++ l2) body s = (s' <- for_each l1 body s; for_each l2 body s').
Proof.
  revert s; induction l1 as [|a l1 IH]; intros s; simpl; [reflexivity|].
  destruct (body a s); simpl; auto.
Qed.

Lemma bind_lift_ok {A B} (a : A) (f : A -> M B) : bind (lift (Ok a)) f = f a.
Proof. unfold bind, lift. destruct (f a); reflexivity. Qed.

Lemma bind_ret {A B} (a : A) (f : A -> M B) : bind (ret a) f = f a.
Proof. unfold bind, ret. destruct (f a); reflexivity. Qed.

Lemma bind_ok_inv {A B} (m : M A) (f : A -> M B) (b : B) (out : list string) :
  bind m f = (Ok b, out) ->
  exists a o1 o2, m = (Ok a, o1) /\ f a = (Ok b, o2) /\ out = o1 ++ o2.
Proof.
  unfold bind. destruct m as [[a|e] o1]; [|discriminate].
  destruct (f a) as [r o2] eqn:E. intros H; inversion H; subst.
  exists a, o1, o2. auto.
Qed.

Lemma fails_bind {A B} (m : M A) (f : A -> M B) :
  (forall a, fails (f a)) -> fails (bind m f).
Proof.
  unfold fails, bind. intros H. destruct m as [[a|e] o]; simpl; [|exact I].
  specialize (H a). destruct (f a) as [r o']. exact H.
Qed.

Lemma fails_bind_l {A B} (m : M A) (f : A -> M B) :
  fails m -> fails (bind m f).
Proof.
  unfold fails, bind. destruct m as [[a|e] o]; simpl; [contradiction|auto].
Qed.

(** An iteration that raises whatever the state stops the whole loop:
    either an earlier iteration has raised, or this one does. *)
Lemma for_eachM_fails {A S} (l : list A) (body : A -> S -> M S) (x : A) :
  In x l -> (forall s, fails (body x s)) -> forall s, fails (for_eachM l body s).
Proof.
  intros Hin Hx. induction l as [|a l IH]; [contradiction|].
  intros s. simpl. destruct Hin as [->|Hin].
  - apply fails_bind_l, Hx.
  - apply fails_bind. intros s'. apply IH, Hin.
Qed.

Lemma for_each_fails {A S} (l : list A) (body : A -> S -> result S) (x : A) :
  In x l -> (forall s, is_err (body x s)) -> forall s, is_err (for_each l body s).
Proof.
  intros Hin Hx. induction l as [|a l IH]; [contradiction|].
  intros s. simpl. destruct Hin as [->|Hin].
  - specialize (Hx s). destruct (body x s); [contradiction|exact I].
  - destruct (body a s); simpl; [apply IH, Hin|exact I].
Qed.

Lemma mem_lookup (k : string) (d : list (string * value)) :
  mem k (map fst d) = match lookup k d with Some _ => true | None => false end.
Proof.
  induction d as [|[k' v] d IH]; simpl; [reflexivity|].
  destruct (String.eqb k k'); simpl; auto.
Qed.






(** * The product index *)

Lemma entries_of_app (cs1 cs2 : list value) :
  entries_of (cs1 ++ cs2) = entries_of cs1 ++ entries_of cs2.
Proof. unfold entries_of. rewrite filter_app, map_app. reflexivity. Qed.

(** A loop whose every iteration appends the entries of some nodes appends,
    in all, the entries of all these nodes in order. *)
Lemma for_each_collect {A} (body : A -> pmap_t -> result pmap_t)
    (nodes : A -> list value) :
  (forall a pm pm', body a pm = Ok pm' ->
     map Some pm' = map Some pm ++ entries_of (nodes a)) ->
  forall l pm pm', for_each l body pm = Ok pm' ->
     map Some pm' = map Some pm ++ entries_of (flat_map nodes l).
Proof.
  intros Hbody l. induction l as [|a l IH]; simpl; intros pm pm' H.
  - inversion H; subst. rewrite app_nil_r. reflexivity.
  - destruct (body a pm) as [pm1|e] eqn:E; simpl in H; [|discriminate].
    rewrite (IH _ _ H), (Hbody _ _ _ E), entries_of_app, app_assoc.
    reflexivity.
Qed.

Lemma flat_map_singleton {A} (l : list A) : flat_map (fun a => [a]) l = l.
Proof. induction l as [|a l IH]; simpl; [|rewrite IH]; reflexivity. Qed.

Lemma leaf_step_entries (c : value) (pm pm' : pmap_t) :
  leaf_step c pm = Ok pm' -> map Some pm' = map Some pm ++ entries_of [c].
Proof.
  unfold leaf_step, entries_of, is_product_name, entry_of, keys, entry.
  destruct c as [| | | | |l|d]; simpl; try discriminate.
  rewrite mem_lookup.
  destruct (lookup "category" d) as [cat|]; simpl.
  - destruct (eq_str cat "product_name"); simpl.
    + destruct (lookup "name" d) as [name|]; simpl; [|discriminate].
      destruct (lookup "product" d) as [product|]; simpl; [|discriminate].
      destruct (getitem product "product_id") as [id|]; simpl; [|discriminate].
      destruct (hashable id); simpl; [|discriminate].
      intros H; inversion H; subst. rewrite map_app. reflexivity.
    + intros H; inversion H; subst. rewrite app_nil_r. reflexivity.
  - intros H; inversion H; subst. rewrite app_nil_r. reflexivity.
Qed.

Lemma branch_step_entries (b : value) (pm pm' : pmap_t) :
  branch_step b pm = Ok pm' ->
  map Some pm' = map Some pm ++ entries_of (children b).
Proof.
  unfold branch_step, children, keys.
  destruct b as [| | | | |l|d]; simpl; try discriminate.
  rewrite mem_lookup.
  destruct (lookup "branches" d) as [bs|]; simpl.
  - destruct (iter bs) as [cs|]; simpl; [|discriminate].
    intros H.
    rewrite (for_each_collect leaf_step (fun c => [c]) leaf_step_entries _ _ _ H).
    rewrite flat_map_singleton. reflexivity.
  - intros H; inversion H; subst. rewrite app_nil_r. reflexivity.
Qed.

Lemma top_step_entries (p : value) (pm pm' : pmap_t) :
  top_step p pm = Ok pm' ->
  map Some pm' = map Some pm ++ entries_of (nodes_at_depth 2 p).
Proof.
  unfold top_step.
  destruct (getitem p "branches") as [bs|] eqn:Eb; simpl; [|discriminate].
  destruct (iter bs) as [bl|] eqn:Ei; simpl; [|discriminate].
  intros H.
  assert (Hc : children p = bl) by (unfold children; rewrite Eb, Ei; reflexivity).
  rewrite Hc.
  rewrite (for_each_collect branch_step children branch_step_entries _ _ _ H).
  f_equal. f_equal. apply flat_map_ext. intros b.
  rewrite flat_map_singleton. reflexivity.
Qed.

(** What a successful [build_product_tree] leaves in the object. *)
Lemma build_product_tree_entries (self self' : VexPackages) :
  build_product_tree self = Ok self' ->
  exists tree,
    getitem (raw self) "product_tree" = Ok tree /\
    map Some (pmap self') = entries_of (nodes_at_depth 3 tree) /\
    self' = set_pmap self (pmap self').
Proof.
  unfold build_product_tree. simpl.
  destruct (getitem (raw self) "product_tree") as [tree|]; simpl; [|discriminate].
  destruct (getitem tree "branches") as [bs|] eqn:Eb; simpl; [|discriminate].
  destruct (iter bs) as [ps|] eqn:Ei; simpl; [|discriminate].
  destruct (for_each ps top_step []) as [pm|] eqn:E; simpl; [|discriminate].
  intros H; inversion H; subst. exists tree. split; [reflexivity|]. split.
  - simpl pmap.
    pose proof (for_each_collect top_step (nodes_at_depth 2) top_step_entries _ _ _ E) as Hc.
    simpl map in Hc. simpl app in Hc. rewrite Hc.
    assert (Hch : children tree = ps) by (unfold children; rewrite Eb, Ei; reflexivity).
    change (nodes_at_depth 3 tree)
      with (flat_map (nodes_at_depth 2) (children tree)).
    rewrite Hch. reflexivity.
  - reflexivity.
Qed.


Lemma for_each_total {A S} (l : list A) (body : A -> S -> result S) :
  (forall a, In a l -> forall s, exists s', body a s = Ok s') ->
  forall s, exists s', for_each l body s = Ok s'.
Proof.
  induction l as [|a l IH]; simpl; intros H s; [eauto|].
  destruct (H a (or_introl eq_refl) s) as [s1 E]. rewrite E. simpl.
  apply IH. intros a' Ha'. apply H. right. exact Ha'.
Qed.

Lemma leaf_step_total (c : value) (pm : pmap_t) :
  leaf_ok c = true -> exists pm', leaf_step c pm = Ok pm'.
Proof.
  unfold leaf_ok, leaf_step, is_product_name, entry_of, keys, entry.
  destruct c as [| | | | |l|d]; simpl; try discriminate.
  rewrite mem_lookup.
  destruct (lookup "category" d) as [cat|]; simpl; [|eauto].
  destruct (eq_str cat "product_name"); simpl; [|eauto].
  destruct (lookup "name" d) as [name|]; simpl; [|discriminate].
  destruct (lookup "product" d) as [product|]; simpl; [|discriminate].
  destruct (getitem product "product_id") as [id|]; simpl; [|discriminate].
  intros ->. simpl. eauto.
Qed.

Lemma branch_step_total (b : value) (pm : pmap_t) :
  branch_ok b = true -> exists pm', branch_step b pm = Ok pm'.
Proof.
  unfold branch_ok, branch_step, keys.
  destruct b as [| | | | |l|d]; simpl; try discriminate.
  rewrite mem_lookup.
  destruct (lookup "branches" d) as [bs|]; simpl; [|eauto].
  destruct bs as [| | | | |cs|]; try discriminate. simpl.
  intros H. apply for_each_total. intros c Hc pm0.
  apply leaf_step_total. rewrite forallb_forall in H. auto.
Qed.

Lemma top_step_total (p : value) (pm : pmap_t) :
  top_ok p = true -> exists pm', top_step p pm = Ok pm'.
Proof.
  unfold top_ok, top_step.
  destruct (getitem p "branches") as [bs|]; [|discriminate].
  destruct bs as [| | | | |bl|]; try discriminate. simpl.
  intros H. apply for_each_total. intros b Hb pm0.
  apply branch_step_total. rewrite forallb_forall in H. auto.
Qed.

Lemma build_product_tree_total (self : VexPackages) (tree : value) :
  getitem (raw self) "product_tree" = Ok tree ->
  tree_ok tree = true ->
  exists self', build_product_tree self = Ok self'.
Proof.
  unfold tree_ok, build_product_tree. simpl. intros -> . simpl.
  destruct (getitem tree "branches") as [bs|]; [|discriminate].
  destruct bs as [| | | | |ps|]; try discriminate. simpl.
  intros H.
  destruct (for_each_total ps top_step) with (s := @nil (value * value)) as [pm E].
  - intros p Hp pm0. apply top_step_total. rewrite forallb_forall in H. auto.
  - rewrite E. simpl. eauto.
Qed.

(** C1 (amended): on a product tree whose nodes have the expected shape
    down to the third [branches] level the walk completes, and whenever it
    completes the index holds, in document order, exactly one entry
    (product_id, name) for each node tagged [product_name] that sits three
    [branches] levels below the product tree, and nothing else: nodes at
    any other depth are not recorded. *)
Theorem C1_index_is_the_depth_three_product_names
    (self : VexPackages) (tree : value) :
  getitem (raw self) "product_tree" = Ok tree ->
  (tree_ok tree = true -> exists self', build_product_tree self = Ok self') /\
  (forall self', build_product_tree self = Ok self' ->
     map Some (pmap self') = entries_of (nodes_at_depth 3 tree)).
Proof.
  intros Ht. split.
  - apply build_product_tree_total. exact Ht.
  - intros self' H.
    destruct (build_product_tree_entries _ _ H) as (tree' & Ht' & Hm & _).
    rewrite Ht in Ht'. inversion Ht'; subst. exact Hm.
Qed.



(** * The record classes *)

Lemma eq_str_true (v : value) (s : string) : eq_str v s = true -> v = VStr s.
Proof.
  destruct v; simpl; try discriminate.
  intros H. apply String.eqb_eq in H. congruence.
Qed.

Lemma product_lookup_absent (p : string) (pm : pmap_t) :
  ~ In (VStr p) (map fst pm) -> product_lookup p pm = VNone.
Proof.
  induction pm as [|[id name] pm IH]; simpl; intros H; [reflexivity|].
  destruct (eq_str id p) eqn:E.
  - exfalso. apply H. left. apply eq_str_true. exact E.
  - apply IH. intros Hin. apply H. right. exact Hin.
Qed.

(** [Affected] and [NotAffected] cut an identifier at its first colon. *)
Lemma Affected_init_decompose (p rest : string) (pm : pmap_t) :
  has_char colon p = false ->
  Affected_init (VStr (p ++ ":" ++ rest)) pm
  = Ok (mkAffected [rest] (product_lookup p pm)).
Proof.
  intros Hp. unfold Affected_init. simpl split_value.
  change (p ++ String ":" rest)%string with (p ++ String colon rest)%string.
  rewrite (split_app_sep colon p rest Hp). simpl.
  change ":" with (String colon EmptyString).
  rewrite concat_split. reflexivity.
Qed.

Lemma NotAffected_init_decompose (p rest : string) (pm : pmap_t) :
  has_char colon p = false ->
  NotAffected_init (VStr (p ++ ":" ++ rest)) pm
  = Ok (mkNotAffected [rest] (product_lookup p pm)).
Proof.
  intros Hp. unfold NotAffected_init. simpl split_value.
  change (p ++ String ":" rest)%string with (p ++ String colon rest)%string.
  rewrite (split_app_sep colon p rest Hp). simpl.
  change ":" with (String colon EmptyString).
  rewrite concat_split. reflexivity.
Qed.

(** With no colon at all the whole identifier is taken as the product id and
    the component is empty. *)
Lemma Affected_init_one_segment (y : string) (pm : pmap_t) :
  has_char colon y = false ->
  Affected_init (VStr y) pm = Ok (mkAffected [""] (product_lookup y pm)).
Proof.
  intros Hy. unfold Affected_init. simpl split_value.
  rewrite (split_no_sep colon y Hy). reflexivity.
Qed.

Lemma NotAffected_init_one_segment (y : string) (pm : pmap_t) :
  has_char colon y = false ->
  NotAffected_init (VStr y) pm = Ok (mkNotAffected [""] (product_lookup y pm)).
Proof.
  intros Hy. unfold NotAffected_init. simpl split_value.
  rewrite (split_no_sep colon y Hy). reflexivity.
Qed.

(** [WontFix] takes an identifier of exactly two segments. *)
Lemma WontFix_init_two (p c : string) (x d : value) (pm : pmap_t) :
  has_char colon p = false -> has_char colon c = false ->
  getitem x "details" = Ok d ->
  WontFix_init (VStr (p ++ ":" ++ c)) x pm
  = (Ok (mkWontFix d c (product_lookup p pm)), ["----hit----"]).
Proof.
  intros Hp Hc Hd. unfold WontFix_init. rewrite Hd. simpl split_value.
  change (p ++ String ":" c)%string with (p ++ String colon c)%string.
  rewrite (split_app_sep colon p c Hp), (split_no_sep colon c Hc).
  reflexivity.
Qed.

Lemma WontFix_init_ok_inv (y x : value) (pm : pmap_t) (w : WontFix)
    (out : list string) :
  WontFix_init y x pm = (Ok w, out) ->
  exists d p c,
    getitem x "details" = Ok d /\ y = VStr (p ++ ":" ++ c) /\
    has_char colon p = false /\ has_char colon c = false /\
    w = mkWontFix d c (product_lookup p pm) /\ out = ["----hit----"].
Proof.
  unfold WontFix_init.
  destruct (getitem x "details") as [d|]; [|discriminate].
  destruct y as [| | | |s| |]; try discriminate. simpl split_value.
  destruct (split colon s) as [|p [|c [|v segs]]] eqn:Es; try discriminate.
  intros H. inversion H; subst.
  destruct (split_two _ _ _ _ Es) as (-> & Hp & Hc).
  exists d, p, c. repeat split; auto.
Qed.

(** Any other number of segments does not unpack into the two names. *)
Lemma WontFix_init_one_segment (s : string) (x : value) (pm : pmap_t) :
  has_char colon s = false -> fails (WontFix_init (VStr s) x pm).
Proof.
  intros Hs. unfold WontFix_init, fails.
  destruct (getitem x "details") as [d|]; [|exact I].
  simpl split_value. rewrite (split_no_sep colon s Hs). exact I.
Qed.

(** [Fix] takes identifiers of exactly three segments. *)
Lemma Fix_component_step_three (p c v : string) (self : Fix) (pm : pmap_t) :
  has_char colon p = false -> has_char colon c = false ->
  has_char colon v = false ->
  Fix_component_step pm (VStr (p ++ ":" ++ c ++ ":" ++ v)) self
  = Ok (mkFix (Fix_id self) (Fix_url self)
          (Fix_components self ++ [(c ++ ":" ++ v)%string])
          (Fix_vendor self) (Some (product_lookup p pm))).
Proof.
  intros Hp Hc Hv. unfold Fix_component_step. simpl split_value.
  change (p ++ String ":" (c ++ String ":" v))%string
    with (p ++ String colon (c ++ String colon v))%string.
  rewrite (split_app_sep colon p _ Hp), (split_app_sep colon c v Hc),
    (split_no_sep colon v Hv).
  reflexivity.
Qed.

Lemma Fix_component_step_ok_inv (y : value) (self self' : Fix) (pm : pmap_t) :
  Fix_component_step pm y self = Ok self' ->
  exists p c v,
    y = VStr (p ++ ":" ++ c ++ ":" ++ v) /\
    has_char colon p = false /\ has_char colon c = false /\
    has_char colon v = false /\
    self' = mkFix (Fix_id self) (Fix_url self)
              (Fix_components self ++ [(c ++ ":" ++ v)%string])
              (Fix_vendor self) (Some (product_lookup p pm)).
Proof.
  unfold Fix_component_step.
  destruct y as [| | | |s| |]; try discriminate. simpl split_value.
  destruct (split colon s) as [|p [|c [|v [|w segs]]]] eqn:Es; try discriminate.
  intros H. inversion H; subst.
  destruct (split_three _ _ _ _ _ Es) as (-> & Hp & Hc & Hv).
  exists p, c, v. repeat split; auto.
Qed.

Lemma Fix_component_step_one_segment (s : string) (self : Fix) (pm : pmap_t) :
  has_char colon s = false ->
  Fix_component_step pm (VStr s) self = Err ValueError.
Proof.
  intros Hs. unfold Fix_component_step. simpl split_value.
  rewrite (split_no_sep colon s Hs). reflexivity.
Qed.

(** * The remediation loop *)

(** Runs the steps of a computation that neither print nor raise. *)
Ltac run_pure :=
  repeat first
    [ rewrite bind_lift_ok | rewrite bind_ret
    | progress simpl eq_str | progress simpl iter | progress cbv iota beta ].

Lemma extend_wontfix_nil (self : VexPackages) : extend_wontfix self [] = self.
Proof. destruct self. unfold extend_wontfix. simpl. rewrite app_nil_r. reflexivity. Qed.

Lemma extend_wontfix_cons (self : VexPackages) (w : WontFix) (ws : list WontFix) :
  extend_wontfix (add_wontfix self w) ws = extend_wontfix self (w :: ws).
Proof. unfold extend_wontfix, add_wontfix. simpl. rewrite <- app_assoc. reflexivity. Qed.

Lemma wontfix_step_ok_inv (x y : value) (self self' : VexPackages)
    (out : list string) :
  wontfix_step x y self = (Ok self', out) ->
  exists d w, getitem x "details" = Ok d /\ wontfix_of d (pmap self) y w /\
              self' = add_wontfix self w /\ out = ["----hit----"].
Proof.
  unfold wontfix_step. intros H.
  apply bind_ok_inv in H as (w & o1 & o2 & Hw & Hr & ->).
  apply WontFix_init_ok_inv in Hw as (d & p & c & Hd & -> & Hp & Hc & -> & ->).
  inversion Hr; subst.
  exists d, (mkWontFix d c (product_lookup p (pmap self))).
  repeat split; auto. exists p, c. auto.
Qed.

Lemma wontfix_step_ok (x y d : value) (w : WontFix) (self : VexPackages) :
  getitem x "details" = Ok d -> wontfix_of d (pmap self) y w ->
  wontfix_step x y self = (Ok (add_wontfix self w), ["----hit----"]).
Proof.
  intros Hd (p & c & -> & Hp & Hc & ->). unfold wontfix_step.
  rewrite (WontFix_init_two p c x d (pmap self) Hp Hc Hd). reflexivity.
Qed.

(** The loop over the identifiers of a [no_fix_planned] remediation
    completes exactly when every identifier has its record, and then it has
    appended these records in order and printed one line for each. *)
Lemma wontfix_loop (x d : value) (ys : list value) :
  getitem x "details" = Ok d ->
  forall (self self' : VexPackages) (out : list string),
    for_eachM ys (wontfix_step x) self = (Ok self', out) <->
    exists ws, Forall2 (wontfix_of d (pmap self)) ys ws /\
               self' = extend_wontfix self ws /\
               out = repeat "----hit----" (length ys).
Proof.
  intros Hd. induction ys as [|y ys IH]; intros self self' out; simpl.
  - split.
    + intros H. inversion H; subst. exists []. rewrite extend_wontfix_nil.
      repeat split; constructor.
    + intros (ws & Hf & -> & ->). inversion Hf; subst.
      rewrite extend_wontfix_nil. reflexivity.
  - split.
    + intros H. apply bind_ok_inv in H as (s1 & o1 & o2 & H1 & H2 & ->).
      apply wontfix_step_ok_inv in H1 as (d' & w & Hd' & Hw & -> & ->).
      rewrite Hd in Hd'. inversion Hd'; subst d'.
      apply IH in H2 as (ws & Hf & -> & ->).
      exists (w :: ws). rewrite extend_wontfix_cons.
      repeat split; auto.
    + intros (ws & Hf & -> & ->). inversion Hf as [|? w ? ws' Hw Hf']; subst.
      rewrite (wontfix_step_ok x y d w self Hd Hw). unfold bind.
      assert (E : for_eachM ys (wontfix_step x) (add_wontfix self w)
                  = (Ok (extend_wontfix (add_wontfix self w) ws'),
                     repeat "----hit----" (length ys))).
      { apply IH. exists ws'. auto. }
      rewrite E, extend_wontfix_cons. reflexivity.
Qed.

(** * [Fix.__init__] *)

Lemma assoc_in_keys (v : string) (d : list (string * string)) :
  In v (map fst d) -> exists vendor, assoc v d = Some vendor.
Proof.
  induction d as [|[k w] d IH]; simpl; [contradiction|].
  intros H. destruct (String.eqb v k) eqn:E; [eauto|].
  destruct H as [->|H]; [rewrite String.eqb_refl in E; discriminate|auto].
Qed.

(** The last element a filter keeps, and what follows it. *)
Lemma filter_last_kept {A} (f : A -> bool) (l hs : list A) (v : A) :
  filter f l = hs ++ [v] ->
  exists l1 l2, l = l1 ++ v :: l2 /\ f v = true /\
                Forall (fun a => f a = false) l2.
Proof.
  revert hs v. induction l as [|a l IH] using rev_ind; intros hs v H.
  - destruct hs; discriminate.
  - rewrite filter_app in H. simpl in H. destruct (f a) eqn:E.
    + apply app_inj_tail in H as [_ ->].
      exists l, []. repeat split; auto.
    + rewrite app_nil_r in H. destruct (IH _ _ H) as (l1 & l2 & -> & Hv & Hf).
      exists l1, (l2 ++ [a]). rewrite <- app_assoc. repeat split; auto.
      apply Forall_app. split; auto.
Qed.

(** A marker that is not in the URL leaves the record as it is. *)
Lemma Fix_vendor_step_miss (v : string) (self : Fix) :
  contains v (Fix_url self) = Ok false -> Fix_vendor_step v self = Ok self.
Proof. intros H. unfold Fix_vendor_step. rewrite H. reflexivity. Qed.

Lemma vendor_loop_miss (vs : list string) (self : Fix) :
  Forall (fun v => contains v (Fix_url self) = Ok false) vs ->
  for_each vs Fix_vendor_step self = Ok self.
Proof.
  induction 1 as [|v vs Hv _ IH]; simpl; [reflexivity|].
  rewrite (Fix_vendor_step_miss v self Hv). exact IH.
Qed.

(** A marker that is in the URL sets the id and the vendor, whatever they
    were. *)
Lemma Fix_vendor_step_hit (v u : string) (self : Fix) :
  Fix_url self = VStr u -> substring_of v u = true ->
  In v (map fst VENDOR_ADVISORY) ->
  exists vendor,
    assoc v VENDOR_ADVISORY = Some vendor /\
    Fix_vendor_step v self
    = Ok (mkFix (VStr (advisory_id v vendor u)) (VStr u) (Fix_components self)
            (Some vendor) (Fix_product self)).
Proof.
  intros Hu Hs Hin. destruct (assoc_in_keys _ _ Hin) as [vendor Ha].
  exists vendor. split; [exact Ha|].
  unfold Fix_vendor_step, advisory_id. rewrite Hu. simpl. rewrite Hs, Ha.
  reflexivity.
Qed.

Lemma Fix_vendor_step_keeps (v : string) (self self' : Fix) :
  Fix_vendor_step v self = Ok self' ->
  Fix_url self' = Fix_url self /\ Fix_components self' = Fix_components self /\
  Fix_product self' = Fix_product self.
Proof.
  unfold Fix_vendor_step.
  destruct (contains v (Fix_url self)) as [[|]|]; simpl; try discriminate.
  - destruct (split_value slash (Fix_url self)) as [segs|] eqn:Es; simpl;
      [|discriminate].
    destruct (assoc v VENDOR_ADVISORY); [|discriminate].
    intros H; inversion H; subst. simpl. auto.
  - intros H; inversion H; subst. auto.
Qed.

Lemma vendor_loop_keeps (vs : list string) (self self' : Fix) :
  for_each vs Fix_vendor_step self = Ok self' ->
  Fix_url self' = Fix_url self /\ Fix_components self' = Fix_components self /\
  Fix_product self' = Fix_product self.
Proof.
  revert self. induction vs as [|v vs IH]; simpl; intros self H.
  - inversion H; subst. auto.
  - destruct (Fix_vendor_step v self) as [s1|] eqn:E; simpl in H; [|discriminate].
    destruct (Fix_vendor_step_keeps _ _ _ E) as (E1 & E2 & E3).
    destruct (IH _ H) as (F1 & F2 & F3).
    repeat split; congruence.
Qed.

(** On a str URL the loop over the markers never raises. *)
Lemma vendor_loop_total (vs : list string) (u : string) (self : Fix) :
  Fix_url self = VStr u -> incl vs (map fst VENDOR_ADVISORY) ->
  exists self', for_each vs Fix_vendor_step self = Ok self'.
Proof.
  revert self. induction vs as [|v vs IH]; simpl; intros self Hu Hin; [eauto|].
  assert (Hv : In v (map fst VENDOR_ADVISORY)) by (apply Hin; left; reflexivity).
  assert (Hvs : incl vs (map fst VENDOR_ADVISORY))
    by (intros a Ha; apply Hin; right; exact Ha).
  destruct (substring_of v u) eqn:Es.
  - destruct (Fix_vendor_step_hit v u self Hu Es Hv) as (vendor & _ & ->).
    simpl. apply IH; auto.
  - rewrite Fix_vendor_step_miss by (rewrite Hu; simpl; rewrite Es; reflexivity).
    simpl. apply IH; auto.
Qed.

(** The record after the loop over the markers: untouched when no marker is
    in the URL, and otherwise set by the last marker that is. *)
Lemma vendor_loop_result (vs : list string) (u : string) (self self' : Fix) :
  Fix_url self = VStr u -> incl vs (map fst VENDOR_ADVISORY) ->
  for_each vs Fix_vendor_step self = Ok self' ->
  (filter (fun v => substring_of v u) vs = [] -> self' = self) /\
  (forall hs v, filter (fun v => substring_of v u) vs = hs ++ [v] ->
     exists vendor,
       assoc v VENDOR_ADVISORY = Some vendor /\
       self' = mkFix (VStr (advisory_id v vendor u)) (VStr u)
                 (Fix_components self) (Some vendor) (Fix_product self)).
Proof.
  intros Hu Hin H. split.
  - intros Hf. rewrite vendor_loop_miss in H; [inversion H; reflexivity|].
    rewrite Hu. simpl. apply Forall_forall. intros v Hv.
    destruct (substring_of v u) eqn:E; [|reflexivity].
    assert (Hk : In v (filter (fun v => substring_of v u) vs))
      by (apply filter_In; auto).
    rewrite Hf in Hk. contradiction.
  - intros hs v Hf.
    destruct (filter_last_kept _ _ _ _ Hf) as (l1 & l2 & -> & Hv & Hl2).
    change (l1 ++ v :: l2) with (l1 ++ [v] ++ l2) in H.
    rewrite !for_each_app in H.
    destruct (for_each l1 Fix_vendor_step self) as [s1|] eqn:E1; simpl in H;
      [|discriminate].
    destruct (vendor_loop_keeps _ _ _ E1) as (Hu1 & Hc1 & Hp1).
    rewrite Hu in Hu1.
    assert (Hvin : In v (map fst VENDOR_ADVISORY))
      by (apply Hin, in_or_app; right; left; reflexivity).
    destruct (Fix_vendor_step_hit v u s1 Hu1 Hv Hvin) as (vendor & Ha & Es).
    rewrite Es in H. simpl in H.
    rewrite vendor_loop_miss in H.
    + inversion H; subst. exists vendor. rewrite Hc1, Hp1. auto.
    + simpl. apply Forall_forall. intros a Ha'.
      rewrite Forall_forall in Hl2. rewrite (Hl2 a Ha'). reflexivity.
Qed.

Lemma component_loop_ok_inv (pm : pmap_t) (ys : list value) (self self' : Fix) :
  for_each ys (Fix_component_step pm) self = Ok self' ->
  exists comps,
    Forall2 fix_component_of ys comps /\
    Fix_components self' = Fix_components self ++ comps /\
    Fix_id self' = Fix_id self /\ Fix_url self' = Fix_url self /\
    Fix_vendor self' = Fix_vendor self.
Proof.
  revert self. induction ys as [|y ys IH]; simpl; intros self H.
  - inversion H; subst. exists []. rewrite app_nil_r. repeat split; constructor.
  - destruct (Fix_component_step pm y self) as [s1|] eqn:E; simpl in H;
      [|discriminate].
    apply Fix_component_step_ok_inv in E
      as (p & c & v & -> & Hp & Hc & Hv & ->).
    destruct (IH _ H) as (comps & Hf & Hcs & Hid & Hurl & Hven). simpl in *.
    exists ((c ++ ":" ++ v)%string :: comps). rewrite <- app_assoc in Hcs.
    repeat split; auto. constructor; auto.
    exists p, c, v. auto.
Qed.

Lemma component_loop_total (pm : pmap_t) (ys : list value) (comps : list string) :
  Forall2 fix_component_of ys comps ->
  forall self, exists self', for_each ys (Fix_component_step pm) self = Ok self'.
Proof.
  induction 1 as [|y comp ys comps (p & c & v & -> & Hp & Hc & Hv & _) _ IH];
    intros self; [simpl; eauto|].
  cbn [for_each].
  rewrite (Fix_component_step_three p c v self pm Hp Hc Hv). simpl. apply IH.
Qed.


(** The steps of a successful [Fix.__init__]. *)
Lemma Fix_init_ok_inv (x : value) (pm : pmap_t) (r : Fix) :
  Fix_init x pm = Ok r ->
  exists url ids ys self1,
    getitem x "url" = Ok url /\
    for_each (map fst VENDOR_ADVISORY) Fix_vendor_step
      (mkFix VNone url [] None None) = Ok self1 /\
    getitem x "product_ids" = Ok ids /\
    filter_components ids = Ok ys /\
    for_each ys (Fix_component_step pm) self1 = Ok r.
Proof.
  unfold Fix_init.
  destruct (getitem x "url") as [url|] eqn:E1; simpl; [|discriminate].
  destruct (for_each (map fst VENDOR_ADVISORY) Fix_vendor_step
              (mkFix VNone url [] None None)) as [self1|] eqn:E2; simpl;
    [|discriminate].
  destruct (getitem x "product_ids") as [ids|] eqn:E3; simpl; [|discriminate].
  destruct (filter_components ids) as [ys|] eqn:E4; simpl; [|discriminate].
  intros H. exists url, ids, ys, self1. repeat split; auto.
Qed.

(** A [vendor_fix] remediation runs [Fix.__init__] once and appends its
    record; the two later [if]s do nothing. *)
Lemma remediation_step_vendor_fix (x : value) (self : VexPackages) :
  getitem x "category" = Ok (VStr "vendor_fix") ->
  remediation_step x self
  = match Fix_init x (pmap self) with
    | Ok r => (Ok (add_fix self r), [])
    | Err e => (Err e, [])
    end.
Proof.
  intros Hcat. unfold remediation_step. rewrite Hcat. run_pure.
  destruct (Fix_init x (pmap self)) as [r|e]; run_pure; reflexivity.
Qed.

(** What [Fix.__init__] gives on a str URL, as far as the id, the vendor
    and the components go. *)
Lemma Fix_init_on_str_url (x ids : value) (u : string) (ys : list value)
    (pm : pmap_t) (r : Fix) :
  getitem x "url" = Ok (VStr u) ->
  getitem x "product_ids" = Ok ids ->
  filter_components ids = Ok ys ->
  Fix_init x pm = Ok r ->
  Fix_url r = VStr u /\
  Forall2 fix_component_of ys (Fix_components r) /\
  (filter (fun v => substring_of v u) (map fst VENDOR_ADVISORY) = [] ->
   Fix_id r = VNone /\ Fix_vendor r = None) /\
  (forall hs v,
     filter (fun v => substring_of v u) (map fst VENDOR_ADVISORY) = hs ++ [v] ->
     exists vendor,
       assoc v VENDOR_ADVISORY = Some vendor /\
       Fix_vendor r = Some vendor /\
       Fix_id r = VStr (advisory_id v vendor u)).
Proof.
  intros Hurl Hids Hys H.
  apply Fix_init_ok_inv in H
    as (url & ids' & ys' & self1 & Hurl' & Hv & Hids' & Hys' & Hc).
  rewrite Hurl in Hurl'. inversion Hurl'; subst url.
  rewrite Hids in Hids'. inversion Hids'; subst ids'.
  rewrite Hys in Hys'. inversion Hys'; subst ys'.
  destruct (vendor_loop_result (map fst VENDOR_ADVISORY) u
              (mkFix VNone (VStr u) [] None None) self1 eq_refl
              (incl_refl _) Hv) as [Hnone Hlast].
  destruct (component_loop_ok_inv _ _ _ _ Hc)
    as (comps & Hf & Hcs & Hid & Hu & Hven).
  destruct (vendor_loop_keeps _ _ _ Hv) as (Hu1 & Hc1 & _). simpl in Hu1, Hc1.
  rewrite Hc1 in Hcs. simpl in Hcs. rewrite Hcs, Hid, Hu, Hven, Hu1.
  split; [reflexivity|]. split; [exact Hf|]. split.
  - intros Hn. rewrite (Hnone Hn). auto.
  - intros hs v Hh. destruct (Hlast hs v Hh) as (vendor & Ha & ->).
    exists vendor. auto.
Qed.

(** On a str URL [Fix.__init__] raises only for an identifier that does not
    unpack into three names. *)
Lemma Fix_init_total (x ids : value) (u : string) (ys : list value)
    (comps : list string) (pm : pmap_t) :
  getitem x "url" = Ok (VStr u) ->
  getitem x "product_ids" = Ok ids ->
  filter_components ids = Ok ys ->
  Forall2 fix_component_of ys comps ->
  exists r, Fix_init x pm = Ok r.
Proof.
  intros Hurl Hids Hys Hf. unfold Fix_init. rewrite Hurl. simpl.
  destruct (vendor_loop_total (map fst VENDOR_ADVISORY) u
              (mkFix VNone (VStr u) [] None None) eq_refl (incl_refl _))
    as [self1 ->].
  simpl. rewrite Hids. simpl. rewrite Hys. simpl.
  apply (component_loop_total pm ys comps Hf).
Qed.

(** C7 (amended): a [vendor_fix] remediation with a str URL that is
    accepted adds exactly one [Fix] record, whatever the number of
    identifiers the filter keeps: the [fixes] bucket afterwards is the
    bucket before followed by the record [Fix.__init__] has built, and
    nothing else in the object changes; the record holds one component for
    each kept identifier, in order.  When a
    marker of [VENDOR_ADVISORY] occurs in the URL, the vendor is the one of
    the last such marker and the id is the last [/]-separated segment of
    the URL, prefixed with that marker and a hyphen when the vendor is
    Gentoo; when no marker occurs in the URL the id stays [None] and no
    vendor is set.  The remediation is accepted exactly when every kept
    identifier is a product id, a component and a version around two
    colons. *)
Theorem C7_one_Fix_per_vendor_fix_remediation
    (x ids : value) (u : string) (ys : list value) (self : VexPackages) :
  getitem x "category" = Ok (VStr "vendor_fix") ->
  getitem x "url" = Ok (VStr u) ->
  getitem x "product_ids" = Ok ids ->
  filter_components ids = Ok ys ->
  ((exists comps, Forall2 fix_component_of ys comps) <->
   (exists self' out, remediation_step x self = (Ok self', out))) /\
  (forall self' out,
     remediation_step x self = (Ok self', out) ->
     exists r,
       Fix_init x (pmap self) = Ok r /\
       self' = add_fix self r /\ out = [] /\
       fixes self' = fixes self ++ [r] /\
       workarounds self' = workarounds self /\
       wontfix self' = wontfix self /\
       affected self' = affected self /\
       not_affected self' = not_affected self /\
       raw self' = raw self /\ pmap self' = pmap self /\
       Fix_url r = VStr u /\
       Forall2 fix_component_of ys (Fix_components r) /\
       (filter (fun v => substring_of v u) (map fst VENDOR_ADVISORY) = [] ->
        Fix_id r = VNone /\ Fix_vendor r = None) /\
       (forall hs v,
          filter (fun v => substring_of v u) (map fst VENDOR_ADVISORY)
          = hs ++ [v] ->
          exists vendor,
            assoc v VENDOR_ADVISORY = Some vendor /\
            Fix_vendor r = Some vendor /\
            Fix_id r = VStr (advisory_id v vendor u))).
Proof.
  intros Hcat Hurl Hids Hys.
  rewrite (remediation_step_vendor_fix x self Hcat).
  assert (Hinv : forall (self' : VexPackages) (out : list string),
             match Fix_init x (pmap self) with
             | Ok r => (Ok (add_fix self r), [])
             | Err e => (Err e, [])
             end = (Ok self', out) ->
             exists r, Fix_init x (pmap self) = Ok r /\
                       self' = add_fix self r /\ out = []).
  { intros self' out H. destruct (Fix_init x (pmap self)) as [r|e];
      inversion H; subst. eauto. }
  split; [split|].
  - intros [comps Hf].
    destruct (Fix_init_total x ids u ys comps (pmap self) Hurl Hids Hys Hf)
      as [r ->].
    eauto.
  - intros (self' & out & H). apply Hinv in H as (r & Hr & _ & _).
    exists (Fix_components r).
    apply (Fix_init_on_str_url x ids u ys (pmap self) r Hurl Hids Hys Hr).
  - intros self' out H. apply Hinv in H as (r & Hr & -> & ->).
    exists r. split; [exact Hr|].
    do 9 (split; [reflexivity|]).
    apply (Fix_init_on_str_url x ids u ys (pmap self) r Hurl Hids Hys Hr).
Qed.


(** * Exceptions stop the classification *)

Lemma wontfix_step_one_segment (x : value) (s : string) (self : VexPackages) :
  has_char colon s = false -> fails (wontfix_step x (VStr s) self).
Proof.
  intros Hs. unfold wontfix_step. apply fails_bind_l.
  apply WontFix_init_one_segment. exact Hs.
Qed.

Lemma Fix_init_one_segment (x ids : value) (ys : list value) (s : string)
    (pm : pmap_t) :
  getitem x "product_ids" = Ok ids -> filter_components ids = Ok ys ->
  In (VStr s) ys -> has_char colon s = false ->
  is_err (Fix_init x pm).
Proof.
  intros Hids Hys Hin Hs. unfold Fix_init.
  destruct (getitem x "url") as [url|]; simpl; [|exact I].
  destruct (for_each (map fst VENDOR_ADVISORY) Fix_vendor_step
              (mkFix VNone url [] None None)) as [self1|]; simpl; [|exact I].
  rewrite Hids. simpl. rewrite Hys. simpl.
  apply (for_each_fails ys (Fix_component_step pm) (VStr s) Hin).
  intros f. rewrite (Fix_component_step_one_segment s f pm Hs). exact I.
Qed.

Lemma remediation_step_one_segment (x : value) (s : string) (self : VexPackages) :
  handled_by_remediation x s -> has_char colon s = false ->
  fails (remediation_step x self).
Proof.
  intros [(Hcat & ys & Hids & Hin)|(Hcat & ids & ys & Hids & Hys & Hin)] Hs.
  - unfold remediation_step. rewrite Hcat, Hids. run_pure.
    apply (for_eachM_fails ys (wontfix_step x) (VStr s) Hin).
    intros self0. apply wontfix_step_one_segment. exact Hs.
  - rewrite (remediation_step_vendor_fix x self Hcat).
    pose proof (Fix_init_one_segment x ids ys s (pmap self) Hids Hys Hin Hs) as H.
    unfold fails. destruct (Fix_init x (pmap self)); [contradiction|exact I].
Qed.

Lemma vulnerability_step_fails (k x : value) (xs : list value) :
  getitem k "remediations" = Ok (VList xs) -> In x xs ->
  (forall self, fails (remediation_step x self)) ->
  forall self, fails (vulnerability_step k self).
Proof.
  intros Hk Hin Hx self. unfold vulnerability_step.
  destruct k as [| | | | | |d]; try discriminate.
  simpl contains. rewrite mem_lookup. simpl in Hk.
  destruct (lookup "remediations" d) as [rs|] eqn:E; [|discriminate].
  inversion Hk; subst rs. run_pure.
  apply fails_bind_l. unfold getitem. rewrite E. run_pure.
  apply (for_eachM_fails xs remediation_step x Hin Hx).
Qed.

Lemma parse_packages_fails (self : VexPackages) (k : value) (ks : list value) :
  getitem (raw self) "vulnerabilities" = Ok (VList ks) -> In k ks ->
  (forall s, fails (vulnerability_step k s)) ->
  fails (parse_packages self).
Proof.
  intros Hv Hin Hk. unfold parse_packages. simpl raw. rewrite Hv. run_pure.
  apply (for_eachM_fails ks vulnerability_step k Hin Hk).
Qed.

Lemma build_product_tree_raw (self self' : VexPackages) :
  build_product_tree self = Ok self' -> raw self' = raw self.
Proof.
  intros H. destruct (build_product_tree_entries _ _ H) as (_ & _ & _ & ->).
  reflexivity.
Qed.

Lemma VexPackages_init_fails (self : VexPackages) (doc k : value)
    (ks : list value) :
  getitem doc "vulnerabilities" = Ok (VList ks) -> In k ks ->
  (forall s, fails (vulnerability_step k s)) ->
  fails (VexPackages_init self doc).
Proof.
  intros Hv Hin Hk. unfold VexPackages_init.
  destruct (build_product_tree (set_raw self doc)) as [self1|e] eqn:E.
  - rewrite bind_lift_ok. apply (parse_packages_fails self1 k ks); auto.
    rewrite (build_product_tree_raw _ _ E). exact Hv.
  - exact I.
Qed.

(** C3 (amended): when an identifier with no colon, hence of fewer than two
    segments, is listed by a [no_fix_planned] remediation, or is kept by the
    filter among the identifiers of a [vendor_fix] remediation, building the
    [VexPackages] object of the document ends in an exception and no object,
    hence no bucket, is returned.  The lists under [product_status] are not
    covered: there an identifier with no colon is recorded, with the whole
    identifier as its product id and the empty string as its component. *)
Theorem C3_one_segment_identifier_in_a_remediation_raises
    (doc k x : value) (ks xs : list value) (s : string) (self : VexPackages) :
  has_char colon s = false ->
  (getitem doc "vulnerabilities" = Ok (VList ks) -> In k ks ->
   getitem k "remediations" = Ok (VList xs) -> In x xs ->
   handled_by_remediation x s ->
   fails (VexPackages_init self doc)) /\
  affected_step (VStr s) self
  = (Ok (add_affected self (mkAffected [""] (product_lookup s (pmap self)))), []) /\
  not_affected_step (VStr s) self
  = (Ok (add_not_affected self
           (mkNotAffected [""] (product_lookup s (pmap self)))), []).
Proof.
  intros Hs. split; [|split].
  - intros Hv Hk Hr Hx Hh.
    apply (VexPackages_init_fails self doc k ks Hv Hk).
    apply (vulnerability_step_fails k x xs Hr Hx).
    intros self0. apply (remediation_step_one_segment x s self0 Hh Hs).
  - unfold affected_step.
    rewrite (Affected_init_one_segment s (pmap self) Hs). reflexivity.
  - unfold not_affected_step.
    rewrite (NotAffected_init_one_segment s (pmap self) Hs). reflexivity.
Qed.

(** * Running the constructor again *)

(** [__init__] overwrites every attribute it reads: what the object held
    before does not matter. *)
Lemma VexPackages_init_from_blank (self : VexPackages) (vexdata : value) :
  VexPackages_init self vexdata = VexPackages_init blank vexdata.
Proof.
  unfold VexPackages_init, build_product_tree. simpl.
  destruct (getitem vexdata "product_tree") as [tree|]; simpl; [|reflexivity].
  destruct (getitem tree "branches") as [bs|]; simpl; [|reflexivity].
  destruct (iter bs) as [ps|]; simpl; [|reflexivity].
  destruct (for_each ps top_step []) as [pm|]; simpl; [|reflexivity].
  rewrite ?bind_lift_ok. reflexivity.
Qed.

(** C8: building the [VexPackages] object of a document gives the same
    result whatever the object held before: the same exception, or the same
    index and the same five buckets, record for record and in the same
    order, and the same lines printed.  So running the constructor a second
    time, on the object the first run has built, gives that object again. *)
Theorem C8_classifying_twice_gives_equal_results
    (self1 self2 : VexPackages) (vexdata : value) :
  VexPackages_init self1 vexdata = VexPackages_init self2 vexdata /\
  match VexPackages_init self1 vexdata with
  | (Ok self', out) => VexPackages_init self' vexdata = (Ok self', out)
  | (Err _, _) => True
  end.
Proof.
  split.
  - rewrite (VexPackages_init_from_blank self1), (VexPackages_init_from_blank self2).
    reflexivity.
  - destruct (VexPackages_init self1 vexdata) as [[self'|e] out] eqn:E; [|exact I].
    rewrite <- E.
    rewrite (VexPackages_init_from_blank self'), (VexPackages_init_from_blank self1).
    reflexivity.
Qed.

(** * More on the product index *)

Lemma product_lookup_first_match (p : string) (name : value) (pm1 pm2 : pmap_t) :
  ~ In (VStr p) (map fst pm1) ->
  product_lookup p (pm1 ++ (VStr p, name) :: pm2) = name.
Proof.
  induction pm1 as [|[id n] pm1 IH]; simpl; intros H.
  - rewrite String.eqb_refl. reflexivity.
  - destruct (eq_str id p) eqn:E.
    + exfalso. apply H. left. apply eq_str_true. exact E.
    + apply IH. intros Hin. apply H. right. exact Hin.
Qed.

Lemma in_keys_first (p : string) (pm : pmap_t) :
  In (VStr p) (map fst pm) ->
  exists name pm1 pm2,
    pm = pm1 ++ (VStr p, name) :: pm2 /\ ~ In (VStr p) (map fst pm1).
Proof.
  induction pm as [|[id n] pm IH]; simpl; [contradiction|].
  intros H. destruct (eq_str id p) eqn:E.
  - apply eq_str_true in E. subst id. exists n, [], pm. split; [reflexivity|].
    intros [].
  - assert (Hid : id <> VStr p).
    { intros ->. simpl in E. rewrite String.eqb_refl in E. discriminate. }
    destruct H as [H|H]; [contradiction|].
    destruct (IH H) as (name & pm1 & pm2 & -> & Hn).
    exists name, ((id, n) :: pm1), pm2. split; [reflexivity|].
    simpl. intros [Hh|Hh]; auto.
Qed.

Lemma in_keys_dec (p : string) (pm : pmap_t) :
  In (VStr p) (map fst pm) \/ ~ In (VStr p) (map fst pm).
Proof.
  induction pm as [|[id n] pm IH]; simpl; [right; intros []|].
  destruct (eq_str id p) eqn:E.
  - left. left. apply eq_str_true. exact E.
  - destruct IH as [IH|IH]; [left; right; exact IH|].
    right. intros [H|H]; [|contradiction].
    subst id. simpl in E. rewrite String.eqb_refl in E. discriminate.
Qed.

(** X1: [product_lookup] returns the name held by the first entry of the
    index whose key is the product id, so that later entries under the same
    id are never seen, and returns [None] exactly when there is no such
    entry or when that first entry holds [None]: it never raises, and a
    [None] result alone does not tell an id that is missing from an id whose
    name is null. *)
Theorem X1_product_lookup_is_the_first_match
    (p : string) (pm : pmap_t) (v : value) :
  product_lookup p pm = v <->
  (exists pm1 pm2,
      pm = pm1 ++ (VStr p, v) :: pm2 /\ ~ In (VStr p) (map fst pm1)) \/
  (~ In (VStr p) (map fst pm) /\ v = VNone).
Proof.
  split.
  - intros H. destruct (in_keys_dec p pm) as [Hin|Hout].
    + left. destruct (in_keys_first p pm Hin) as (name & pm1 & pm2 & -> & Hn).
      rewrite (product_lookup_first_match p name pm1 pm2 Hn) in H. subst v.
      exists pm1, pm2. auto.
    + right. rewrite (product_lookup_absent p pm Hout) in H. auto.
  - intros [(pm1 & pm2 & -> & Hn)|[Hout ->]].
    + apply product_lookup_first_match. exact Hn.
    + apply product_lookup_absent. exact Hout.
Qed.

(** X2: after [build_product_tree] has completed, looking up the product id
    of a [product_name] node three levels down gives the name of the first
    such node, in document order, that declares this id. *)
Theorem X2_an_indexed_product_id_resolves_to_its_first_name
    (self self' : VexPackages) (tree c : value) (cs1 cs2 : list value)
    (id : string) (name : value) :
  getitem (raw self) "product_tree" = Ok tree ->
  build_product_tree self = Ok self' ->
  nodes_at_depth 3 tree = cs1 ++ c :: cs2 ->
  is_product_name c = true ->
  entry_of c = Some (VStr id, name) ->
  (forall c' n, In c' cs1 -> is_product_name c' = true ->
                entry_of c' <> Some (VStr id, n)) ->
  product_lookup id (pmap self') = name.
Proof.
  intros Ht Hb Hn Hc He Hfirst.
  destruct (build_product_tree_entries _ _ Hb) as (tree' & Ht' & Hm & _).
  rewrite Ht in Ht'. inversion Ht'; subst tree'.
  rewrite Hn, entries_of_app in Hm.
  unfold entries_of at 2 in Hm. simpl in Hm. rewrite Hc in Hm. simpl in Hm.
  rewrite He in Hm.
  apply map_eq_app in Hm as (pm1 & pm' & Hpm & H1 & H2).
  apply map_eq_cons in H2 as (e & pm2 & -> & Hee & _).
  inversion Hee; subst e. rewrite Hpm.
  apply product_lookup_first_match.
  intros Hin. apply in_map_iff in Hin as ([k n] & Hk & Hin). simpl in Hk.
  subst k.
  assert (Hs : In (Some (VStr id, n)) (map Some pm1))
    by (apply in_map_iff; eauto).
  rewrite H1 in Hs. unfold entries_of in Hs.
  apply in_map_iff in Hs as (c' & Hc' & Hf).
  apply filter_In in Hf as [Hin' Hp'].
  exact (Hfirst c' n Hin' Hp' Hc').
Qed.

Lemma children_inv (n c : value) :
  In c (children n) ->
  exists bs, getitem n "branches" = Ok bs /\ iter bs = Ok (children n).
Proof.
  unfold children.
  destruct (getitem n "branches") as [bs|] eqn:E1; [|contradiction].
  destruct (iter bs) as [l|] eqn:E2; [|contradiction].
  intros _. exists bs. auto.
Qed.

Lemma leaf_step_no_entry (c : value) (pm : pmap_t) :
  no_entry c -> is_err (leaf_step c pm).
Proof.
  unfold no_entry, leaf_step, is_product_name, entry_of, keys, entry.
  destruct c as [| | | | |l|d]; simpl; try (intros [H _]; discriminate H).
  rewrite mem_lookup.
  destruct (lookup "category" d) as [cat|]; simpl;
    [|intros [H _]; discriminate H].
  intros [-> H]. simpl.
  destruct (lookup "name" d) as [name|]; simpl; [|exact I].
  destruct (lookup "product" d) as [product|]; simpl; [|exact I].
  destruct (getitem product "product_id") as [id|]; simpl; [|exact I].
  rewrite H. exact I.
Qed.

Lemma branch_step_no_entry (b c : value) (pm : pmap_t) :
  In c (children b) -> no_entry c -> is_err (branch_step b pm).
Proof.
  intros Hin Hbad.
  destruct (children_inv _ _ Hin) as (bs & Ebs & Ecs).
  remember (children b) as cs eqn:Hcs. clear Hcs.
  unfold branch_step.
  destruct b as [| | | | | |d]; try discriminate Ebs.
  cbn [keys rbind]. rewrite mem_lookup.
  unfold getitem in Ebs |- *.
  destruct (lookup "branches" d) as [bb|]; [|discriminate].
  inversion Ebs; subst bb. cbn [rbind]. rewrite Ecs. cbn [rbind].
  apply (for_each_fails cs leaf_step c Hin). intros pm2.
  apply leaf_step_no_entry. exact Hbad.
Qed.

Lemma top_step_no_entry (p c : value) (pm : pmap_t) :
  In c (nodes_at_depth 2 p) -> no_entry c -> is_err (top_step p pm).
Proof.
  intros Hin Hbad. simpl in Hin.
  apply in_flat_map in Hin as (b & Hb & Hin).
  rewrite flat_map_singleton in Hin.
  destruct (children_inv _ _ Hb) as (bs & Ebs & Ebl).
  remember (children p) as bl eqn:Hbl. clear Hbl.
  unfold top_step. rewrite Ebs. cbn [rbind]. rewrite Ebl. cbn [rbind].
  apply (for_each_fails bl branch_step b Hb). intros pm1.
  apply (branch_step_no_entry b c pm1 Hin Hbad).
Qed.

(** X3: a [product_name] node three levels down that lacks [name],
    [product] or [product_id], or whose product id is a list or a dict,
    makes [build_product_tree] raise: of the keys of a leaf only [category]
    is tested before it is read, and one such leaf costs the whole index. *)
Theorem X3_a_product_leaf_without_its_keys_aborts_the_index
    (self : VexPackages) (tree c : value) :
  getitem (raw self) "product_tree" = Ok tree ->
  In c (nodes_at_depth 3 tree) ->
  no_entry c ->
  is_err (build_product_tree self).
Proof.
  intros Ht Hin Hbad.
  change (nodes_at_depth 3 tree)
    with (flat_map (nodes_at_depth 2) (children tree)) in Hin.
  apply in_flat_map in Hin as (p & Hp & Hin).
  destruct (children_inv _ _ Hp) as (bs & Ebs & Eps).
  remember (children tree) as ps eqn:Hps. clear Hps.
  unfold build_product_tree. cbn [raw set_pmap pmap]. rewrite Ht.
  cbn [rbind]. rewrite Ebs. cbn [rbind]. rewrite Eps. cbn [rbind].
  assert (Hfail : is_err (for_each ps top_step [])).
  { apply (for_each_fails ps top_step p Hp). intros pm.
    apply (top_step_no_entry p c pm Hin Hbad). }
  destruct (for_each ps top_step []); [contradiction|exact I].
Qed.

(** * More on the classifier *)

Lemma lift_ok (A : Type) (r : result A) (a : A) (out : list string) :
  lift r = (Ok a, out) -> r = Ok a /\ out = [].
Proof. unfold lift. intros H. inversion H. auto. Qed.

Lemma ret_ok (A : Type) (a b : A) (out : list string) :
  ret a = (Ok b, out) -> a = b /\ out = [].
Proof. unfold ret. intros H. inversion H. auto. Qed.

(** Splits a successful run into the successful runs of its steps. *)
Ltac split_run H :=
  repeat match type of H with
         | bind _ _ = (Ok _, _) =>
             let a := fresh "a" in
             let o1 := fresh "o" in
             let o2 := fresh "o" in
             let H1 := fresh "Hstep" in
             apply bind_ok_inv in H as (a & o1 & o2 & H1 & H & ->);
             try (apply lift_ok in H1 as [H1 ->]);
             try (apply ret_ok in H1 as [<- ->])
         end.

(** What holds of every iteration that completes holds of a loop that
    completes, when it holds of no iteration at all and of two runs in a
    row. *)
Lemma for_eachM_ok {A S} (R : S -> S -> list string -> Prop)
    (body : A -> S -> M S) (l : list A) :
  (forall s, R s s []) ->
  (forall s1 s2 s3 o1 o2, R s1 s2 o1 -> R s2 s3 o2 -> R s1 s3 (o1 ++ o2)) ->
  (forall a s s' o, In a l -> body a s = (Ok s', o) -> R s s' o) ->
  forall s s' o, for_eachM l body s = (Ok s', o) -> R s s' o.
Proof.
  intros Hrefl Htrans. induction l as [|a l IH]; intros Hbody s s' o H.
  - simpl in H. apply ret_ok in H as [-> ->]. apply Hrefl.
  - simpl in H. apply bind_ok_inv in H as (s1 & o1 & o2 & H1 & H2 & ->).
    apply (Htrans s s1 s').
    + apply (Hbody a); [left; reflexivity|exact H1].
    + apply IH; [|exact H2]. intros a' t t' o' Hin. apply Hbody. right. exact Hin.
Qed.

Lemma grows_refl (self : VexPackages) : grows self self [].
Proof.
  unfold grows. repeat split. exists [], [], [], [], [].
  rewrite !app_nil_r. repeat split.
Qed.

Lemma grows_trans (s1 s2 s3 : VexPackages) (o1 o2 : list string) :
  grows s1 s2 o1 -> grows s2 s3 o2 -> grows s1 s3 (o1 ++ o2).
Proof.
  intros (Hr1 & Hp1 & fs1 & wa1 & wf1 & af1 & nf1 & F1 & W1 & X1 & A1 & N1 & ->)
         (Hr2 & Hp2 & fs2 & wa2 & wf2 & af2 & nf2 & F2 & W2 & X2 & A2 & N2 & ->).
  unfold grows. split; [congruence|]. split; [congruence|].
  exists (fs1 ++ fs2), (wa1 ++ wa2), (wf1 ++ wf2), (af1 ++ af2), (nf1 ++ nf2).
  rewrite F2, W2, X2, A2, N2, F1, W1, X1, A1, N1, <- !app_assoc.
  rewrite length_app, repeat_app. repeat split.
Qed.

Lemma grows_add_fix (self : VexPackages) (f : Fix) :
  grows self (add_fix self f) [].
Proof.
  unfold grows. repeat split. exists [f], [], [], [], [].
  simpl. rewrite !app_nil_r. repeat split.
Qed.

Lemma grows_add_workaround (self : VexPackages) (w : Workaround) :
  grows self (add_workaround self w) [].
Proof.
  unfold grows. repeat split. exists [], [w], [], [], [].
  simpl. rewrite !app_nil_r. repeat split.
Qed.

Lemma grows_add_wontfix (self : VexPackages) (w : WontFix) :
  grows self (add_wontfix self w) ["----hit----"].
Proof.
  unfold grows. repeat split. exists [], [], [w], [], [].
  simpl. rewrite !app_nil_r. repeat split.
Qed.

Lemma grows_add_affected (self : VexPackages) (a : Affected) :
  grows self (add_affected self a) [].
Proof.
  unfold grows. repeat split. exists [], [], [], [a], [].
  simpl. rewrite !app_nil_r. repeat split.
Qed.

Lemma grows_add_not_affected (self : VexPackages) (a : NotAffected) :
  grows self (add_not_affected self a) [].
Proof.
  unfold grows. repeat split. exists [], [], [], [], [a].
  simpl. rewrite !app_nil_r. repeat split.
Qed.

Lemma wontfix_step_grows (x y : value) (self self' : VexPackages)
    (out : list string) :
  wontfix_step x y self = (Ok self', out) -> grows self self' out.
Proof.
  intros H. apply wontfix_step_ok_inv in H as (d & w & _ & _ & -> & ->).
  apply grows_add_wontfix.
Qed.

Lemma affected_step_grows (y : value) (self self' : VexPackages)
    (out : list string) :
  affected_step y self = (Ok self', out) -> grows self self' out.
Proof.
  unfold affected_step. intros H. split_run H.
  apply ret_ok in H as [<- ->]. apply grows_add_affected.
Qed.

Lemma not_affected_step_grows (y : value) (self self' : VexPackages)
    (out : list string) :
  not_affected_step y self = (Ok self', out) -> grows self self' out.
Proof.
  unfold not_affected_step. intros H. split_run H.
  apply ret_ok in H as [<- ->]. apply grows_add_not_affected.
Qed.

Lemma loop_grows {A} (body : A -> VexPackages -> M VexPackages) (l : list A) :
  (forall a s s' o, body a s = (Ok s', o) -> grows s s' o) ->
  forall s s' o, for_eachM l body s = (Ok s', o) -> grows s s' o.
Proof.
  intros Hbody. apply (for_eachM_ok grows body l grows_refl grows_trans).
  intros a s s' o _. apply Hbody.
Qed.

Lemma bind_ext {A B} (m : M A) (f g : A -> M B) :
  (forall a, f a = g a) -> bind m f = bind m g.
Proof.
  intros H. unfold bind. destruct m as [[a|e] o]; [rewrite H|]; reflexivity.
Qed.

Lemma bind_ret_r {A} (m : M A) : bind m (fun a => ret a) = m.
Proof.
  unfold bind, ret. destruct m as [[a|e] o]; [rewrite app_nil_r|]; reflexivity.
Qed.

(** The three [if]s of the loop over the remediations, one category at a
    time. *)
Lemma remediation_step_workaround (x : value) (self : VexPackages) :
  getitem x "category" = Ok (VStr "workaround") ->
  remediation_step x self
  = (wa_details <<- lift (getitem x "details");
     ids <<- lift (getitem x "product_ids");
     w_pkgs <<- lift (filter_components ids);
     ret (add_workaround self (mkWorkaround wa_details w_pkgs))).
Proof.
  intros Hcat. unfold remediation_step. rewrite Hcat. run_pure.
  rewrite (bind_ext _ _ (fun s => ret s)); [apply bind_ret_r|].
  intros s. run_pure. reflexivity.
Qed.

Lemma remediation_step_no_fix_planned (x : value) (self : VexPackages) :
  getitem x "category" = Ok (VStr "no_fix_planned") ->
  remediation_step x self
  = (ids <<- lift (getitem x "product_ids");
     ys <<- lift (iter ids);
     for_eachM ys (wontfix_step x) self).
Proof.
  intros Hcat. unfold remediation_step. rewrite Hcat. run_pure. reflexivity.
Qed.

Lemma remediation_step_other (x cat : value) (self : VexPackages) :
  getitem x "category" = Ok cat ->
  eq_str cat "vendor_fix" = false ->
  eq_str cat "workaround" = false ->
  eq_str cat "no_fix_planned" = false ->
  remediation_step x self = (Ok self, []).
Proof.
  intros Hcat H1 H2 H3. unfold remediation_step. rewrite Hcat.
  rewrite !bind_lift_ok, H1, bind_ret, bind_lift_ok, H2, bind_ret,
    bind_lift_ok, H3.
  reflexivity.
Qed.

Lemma wontfix_loop_ok_inv (x : value) (ys : list value)
    (self self' : VexPackages) (out : list string) :
  for_eachM ys (wontfix_step x) self = (Ok self', out) ->
  exists ws, self' = extend_wontfix self ws /\ length ws = length ys /\
             out = repeat "----hit----" (length ys).
Proof.
  revert self out. induction ys as [|y ys IH]; intros self out H; simpl in H.
  - apply ret_ok in H as [-> ->]. exists []. rewrite extend_wontfix_nil. auto.
  - apply bind_ok_inv in H as (s1 & o1 & o2 & H1 & H2 & ->).
    apply wontfix_step_ok_inv in H1 as (d & w & _ & _ & -> & ->).
    apply IH in H2 as (ws & -> & Hl & ->).
    exists (w :: ws). rewrite extend_wontfix_cons. simpl. auto.
Qed.

Lemma remediation_step_ok_inv
    (x : value) (self self' : VexPackages) (out : list string) :
  remediation_step x self = (Ok self', out) ->
  exists cat,
    getitem x "category" = Ok cat /\
    ((cat = VStr "vendor_fix" /\ out = [] /\
      exists r, self' = add_fix self r) \/
     (cat = VStr "workaround" /\ out = [] /\
      exists w, self' = add_workaround self w) \/
     (cat = VStr "no_fix_planned" /\
      exists ws, self' = extend_wontfix self ws /\
                 out = repeat "----hit----" (length ws)) \/
     (eq_str cat "vendor_fix" = false /\ eq_str cat "workaround" = false /\
      eq_str cat "no_fix_planned" = false /\ self' = self /\ out = [])).
Proof.
  intros H.
  destruct (getitem x "category") as [cat|e] eqn:Hcat;
    [|unfold remediation_step in H; rewrite Hcat in H; discriminate H].
  exists cat. split; [reflexivity|].
  destruct (eq_str cat "vendor_fix") eqn:E1.
  { apply eq_str_true in E1. subst cat. left. split; [reflexivity|].
    rewrite (remediation_step_vendor_fix x self Hcat) in H.
    destruct (Fix_init x (pmap self)) as [r|e]; inversion H; subst. eauto. }
  destruct (eq_str cat "workaround") eqn:E2.
  { apply eq_str_true in E2. subst cat. right. left. split; [reflexivity|].
    rewrite (remediation_step_workaround x self Hcat) in H. split_run H.
    apply ret_ok in H as [<- ->]. eauto. }
  destruct (eq_str cat "no_fix_planned") eqn:E3.
  { apply eq_str_true in E3. subst cat. right. right. left.
    split; [reflexivity|].
    rewrite (remediation_step_no_fix_planned x self Hcat) in H. split_run H.
    apply wontfix_loop_ok_inv in H as (ws & -> & Hl & ->).
    exists ws. rewrite Hl. auto. }
  right. right. right.
  rewrite (remediation_step_other x cat self Hcat E1 E2 E3) in H.
  inversion H; subst. auto.
Qed.

(** X4: a remediation that is accepted changes one bucket at most, the one
    its category names, and leaves the document, the index and the two
    product status buckets as they were.  For [vendor_fix] the [fixes]
    bucket afterwards is the bucket before followed by the one record
    [Fix.__init__] has built; for [workaround] the [workarounds] bucket is
    the bucket before followed by one record, which holds the details and
    the identifiers the filter keeps, as they are; for [no_fix_planned] the
    [wontfix] bucket is the bucket before followed by one record for each
    listed identifier, with one line printed for each.  A remediation of
    any other category changes nothing and prints nothing, and one without
    a [category] is never accepted. *)
Theorem X4_a_remediation_fills_the_bucket_of_its_category
    (x : value) (self self' : VexPackages) (out : list string) :
  remediation_step x self = (Ok self', out) ->
  exists cat,
    getitem x "category" = Ok cat /\
    raw self' = raw self /\ pmap self' = pmap self /\
    affected self' = affected self /\ not_affected self' = not_affected self /\
    ((cat = VStr "vendor_fix" /\ out = [] /\
      (exists r, Fix_init x (pmap self) = Ok r /\
                 fixes self' = fixes self ++ [r]) /\
      workarounds self' = workarounds self /\ wontfix self' = wontfix self) \/
     (cat = VStr "workaround" /\ out = [] /\
      (exists d ids ws,
          getitem x "details" = Ok d /\ getitem x "product_ids" = Ok ids /\
          filter_components ids = Ok ws /\
          workarounds self' = workarounds self ++ [mkWorkaround d ws]) /\
      fixes self' = fixes self /\ wontfix self' = wontfix self) \/
     (cat = VStr "no_fix_planned" /\
      (exists ids ys ws,
          getitem x "product_ids" = Ok ids /\ iter ids = Ok ys /\
          length ws = length ys /\
          wontfix self' = wontfix self ++ ws /\
          out = repeat "----hit----" (length ys)) /\
      fixes self' = fixes self /\ workarounds self' = workarounds self) \/
     (eq_str cat "vendor_fix" = false /\ eq_str cat "workaround" = false /\
      eq_str cat "no_fix_planned" = false /\ self' = self /\ out = [])).
Proof.
  intros H.
  destruct (getitem x "category") as [cat|e] eqn:Hcat;
    [|unfold remediation_step in H; rewrite Hcat in H; discriminate H].
  exists cat. split; [reflexivity|].
  destruct (eq_str cat "vendor_fix") eqn:E1.
  { apply eq_str_true in E1. subst cat.
    rewrite (remediation_step_vendor_fix x self Hcat) in H.
    destruct (Fix_init x (pmap self)) as [r|e] eqn:Hr; inversion H; subst.
    do 4 (split; [reflexivity|]). left.
    repeat split; try reflexivity. exists r. split; reflexivity. }
  destruct (eq_str cat "workaround") eqn:E2.
  { apply eq_str_true in E2. subst cat.
    rewrite (remediation_step_workaround x self Hcat) in H. split_run H.
    apply ret_ok in H as [<- ->].
    do 4 (split; [reflexivity|]). right. left.
    repeat split; try reflexivity. eexists _, _, _. repeat split; eauto. }
  destruct (eq_str cat "no_fix_planned") eqn:E3.
  { apply eq_str_true in E3. subst cat.
    rewrite (remediation_step_no_fix_planned x self Hcat) in H. split_run H.
    apply wontfix_loop_ok_inv in H as (ws & -> & Hl & ->).
    do 4 (split; [reflexivity|]). right. right. left.
    repeat split; try reflexivity. eexists _, _, ws. repeat split; eauto. }
  rewrite (remediation_step_other x cat self Hcat E1 E2 E3) in H.
  inversion H; subst.
  do 4 (split; [reflexivity|]). right. right. right. auto.
Qed.

(** * The product status lists *)

Lemma has_char_cut (c : ascii) (s : string) :
  has_char c s = true ->
  exists p rest, s = (p ++ String c rest)%string /\ has_char c p = false.
Proof.
  induction s as [|a s IH]; simpl; [discriminate|].
  destruct (Ascii.eqb a c) eqn:E; simpl.
  - intros _. apply Ascii.eqb_eq in E. subst a. exists "", s. auto.
  - intros H. destruct (IH H) as (p & rest & -> & Hp).
    exists (String a p), rest. simpl. rewrite E. auto.
Qed.

Lemma first_colon_cut_total (s : string) :
  exists p rest, first_colon_cut s p rest.
Proof.
  destruct (has_char colon s) eqn:E.
  - destruct (has_char_cut colon s E) as (p & rest & -> & Hp).
    exists p, rest. split; [exact Hp|]. left. reflexivity.
  - exists s, "". split; [exact E|]. right. auto.
Qed.

Lemma Affected_init_iff (y : value) (pm : pmap_t) (a : Affected) :
  Affected_init y pm = Ok a <-> affected_of pm y a.
Proof.
  split.
  - intros H. destruct y as [| | | |s| |]; try discriminate H.
    destruct (has_char colon s) eqn:E.
    + destruct (has_char_cut colon s E) as (p & rest & -> & Hp).
      change (p ++ String colon rest)%string with (p ++ ":" ++ rest)%string in H.
      rewrite (Affected_init_decompose p rest pm Hp) in H.
      inversion H; subst a. exists (p ++ ":" ++ rest)%string, p, rest.
      repeat split; auto.
    + rewrite (Affected_init_one_segment s pm E) in H. inversion H; subst a.
      exists s, s, "". repeat split; auto.
  - intros (s & p & rest & -> & [Hp [->|[-> ->]]] & ->).
    + apply Affected_init_decompose. exact Hp.
    + apply Affected_init_one_segment. exact Hp.
Qed.

Lemma NotAffected_init_iff (y : value) (pm : pmap_t) (a : NotAffected) :
  NotAffected_init y pm = Ok a <-> not_affected_of pm y a.
Proof.
  split.
  - intros H. destruct y as [| | | |s| |]; try discriminate H.
    destruct (has_char colon s) eqn:E.
    + destruct (has_char_cut colon s E) as (p & rest & -> & Hp).
      change (p ++ String colon rest)%string with (p ++ ":" ++ rest)%string in H.
      rewrite (NotAffected_init_decompose p rest pm Hp) in H.
      inversion H; subst a. exists (p ++ ":" ++ rest)%string, p, rest.
      repeat split; auto.
    + rewrite (NotAffected_init_one_segment s pm E) in H. inversion H; subst a.
      exists s, s, "". repeat split; auto.
  - intros (s & p & rest & -> & [Hp [->|[-> ->]]] & ->).
    + apply NotAffected_init_decompose. exact Hp.
    + apply NotAffected_init_one_segment. exact Hp.
Qed.

Lemma extend_affected_nil (self : VexPackages) : extend_affected self [] = self.
Proof.
  destruct self. unfold extend_affected. simpl. rewrite app_nil_r. reflexivity.
Qed.

Lemma extend_affected_cons (self : VexPackages) (a : Affected)
    (rs : list Affected) :
  extend_affected (add_affected self a) rs = extend_affected self (a :: rs).
Proof.
  unfold extend_affected, add_affected. simpl. rewrite <- app_assoc. reflexivity.
Qed.

Lemma extend_not_affected_nil (self : VexPackages) :
  extend_not_affected self [] = self.
Proof.
  destruct self. unfold extend_not_affected. simpl. rewrite app_nil_r.
  reflexivity.
Qed.

Lemma extend_not_affected_cons (self : VexPackages) (a : NotAffected)
    (rs : list NotAffected) :
  extend_not_affected (add_not_affected self a) rs
  = extend_not_affected self (a :: rs).
Proof.
  unfold extend_not_affected, add_not_affected. simpl. rewrite <- app_assoc.
  reflexivity.
Qed.

Lemma affected_loop (ys : list value) (self self' : VexPackages)
    (out : list string) :
  for_eachM ys affected_step self = (Ok self', out) <->
  exists rs, Forall2 (affected_of (pmap self)) ys rs /\
             self' = extend_affected self rs /\ out = [].
Proof.
  revert self self' out. induction ys as [|y ys IH]; intros self self' out.
  - simpl. split.
    + intros H. apply ret_ok in H as [-> ->]. exists [].
      rewrite extend_affected_nil. repeat split. constructor.
    + intros (rs & Hf & -> & ->). inversion Hf; subst.
      rewrite extend_affected_nil. reflexivity.
  - simpl. split.
    + intros H. apply bind_ok_inv in H as (s1 & o1 & o2 & H1 & H2 & ->).
      unfold affected_step in H1. split_run H1.
      apply ret_ok in H1 as [<- ->].
      apply Affected_init_iff in Hstep.
      apply IH in H2 as (rs & Hf & -> & ->).
      exists (a :: rs). rewrite extend_affected_cons. repeat split.
      constructor; assumption.
    + intros (rs & Hf & -> & ->). inversion Hf as [|? a ? rs' Ha Hf']; subst.
      unfold affected_step at 1.
      apply Affected_init_iff in Ha. rewrite Ha. run_pure.
      apply IH. exists rs'. rewrite extend_affected_cons. auto.
Qed.

Lemma not_affected_loop (ys : list value) (self self' : VexPackages)
    (out : list string) :
  for_eachM ys not_affected_step self = (Ok self', out) <->
  exists rs, Forall2 (not_affected_of (pmap self)) ys rs /\
             self' = extend_not_affected self rs /\ out = [].
Proof.
  revert self self' out. induction ys as [|y ys IH]; intros self self' out.
  - simpl. split.
    + intros H. apply ret_ok in H as [-> ->]. exists [].
      rewrite extend_not_affected_nil. repeat split. constructor.
    + intros (rs & Hf & -> & ->). inversion Hf; subst.
      rewrite extend_not_affected_nil. reflexivity.
  - simpl. split.
    + intros H. apply bind_ok_inv in H as (s1 & o1 & o2 & H1 & H2 & ->).
      unfold not_affected_step in H1. split_run H1.
      apply ret_ok in H1 as [<- ->].
      apply NotAffected_init_iff in Hstep.
      apply IH in H2 as (rs & Hf & -> & ->).
      exists (a :: rs). rewrite extend_not_affected_cons. repeat split.
      constructor; assumption.
    + intros (rs & Hf & -> & ->). inversion Hf as [|? a ? rs' Ha Hf']; subst.
      unfold not_affected_step at 1.
      apply NotAffected_init_iff in Ha. rewrite Ha. run_pure.
      apply IH. exists rs'. rewrite extend_not_affected_cons. auto.
Qed.

Lemma affected_records_exist (pm : pmap_t) (ys : list value) :
  (forall y, In y ys -> exists s, y = VStr s) ->
  exists rs, Forall2 (affected_of pm) ys rs.
Proof.
  induction ys as [|y ys IH]; intros H; [exists []; constructor|].
  destruct (H y (or_introl eq_refl)) as [s ->].
  destruct (first_colon_cut_total s) as (p & rest & Hc).
  destruct IH as [rs Hf]; [intros y Hy; apply H; right; exact Hy|].
  exists (mkAffected [rest] (product_lookup p pm) :: rs).
  constructor; [|exact Hf]. exists s, p, rest. auto.
Qed.

Lemma not_affected_records_exist (pm : pmap_t) (ys : list value) :
  (forall y, In y ys -> exists s, y = VStr s) ->
  exists rs, Forall2 (not_affected_of pm) ys rs.
Proof.
  induction ys as [|y ys IH]; intros H; [exists []; constructor|].
  destruct (H y (or_introl eq_refl)) as [s ->].
  destruct (first_colon_cut_total s) as (p & rest & Hc).
  destruct IH as [rs Hf]; [intros y Hy; apply H; right; exact Hy|].
  exists (mkNotAffected [rest] (product_lookup p pm) :: rs).
  constructor; [|exact Hf]. exists s, p, rest. auto.
Qed.

Lemma affected_records_of_strs (pm : pmap_t) (ys : list value)
    (rs : list Affected) :
  Forall2 (affected_of pm) ys rs -> forall y, In y ys -> exists s, y = VStr s.
Proof.
  induction 1 as [|y0 a ys rs (s & _ & _ & -> & _) _ IH]; intros y Hy;
    [contradiction|].
  destruct Hy as [<-|Hy]; [eauto|apply IH, Hy].
Qed.

Lemma not_affected_records_of_strs (pm : pmap_t) (ys : list value)
    (rs : list NotAffected) :
  Forall2 (not_affected_of pm) ys rs ->
  forall y, In y ys -> exists s, y = VStr s.
Proof.
  induction 1 as [|y0 a ys rs (s & _ & _ & -> & _) _ IH]; intros y Hy;
    [contradiction|].
  destruct Hy as [<-|Hy]; [eauto|apply IH, Hy].
Qed.

(** The two [if]s of the loop over the status keys, one key at a time. *)
Lemma status_step_known_affected (k : value) (self : VexPackages) :
  status_step k (VStr "known_affected") self
  = (ps <<- lift (getitem k "product_status");
     ids <<- lift (getitem ps "known_affected");
     ys <<- lift (filter_components ids);
     for_eachM ys affected_step self).
Proof.
  unfold status_step. run_pure. apply bind_ret_r.
Qed.

Lemma status_step_known_not_affected (k : value) (self : VexPackages) :
  status_step k (VStr "known_not_affected") self
  = (ps <<- lift (getitem k "product_status");
     ids <<- lift (getitem ps "known_not_affected");
     ys <<- lift (filter_components ids);
     for_eachM ys not_affected_step self).
Proof. unfold status_step. run_pure. reflexivity. Qed.

Lemma status_step_other (k x : value) (self : VexPackages) :
  eq_str x "known_affected" = false ->
  eq_str x "known_not_affected" = false ->
  status_step k x self = (Ok self, []).
Proof.
  intros H1 H2. unfold status_step. rewrite H1, bind_ret, H2. reflexivity.
Qed.

(** X6: the identifiers listed as known affected, once filtered, are
    accepted exactly when each of them is a str, whatever the number of its
    colons; each then gives one [Affected] record, in order, holding one
    component: what follows the first colon of the identifier, the product
    being resolved from what precedes it.  Two identifiers of one product
    give two records. *)
Theorem X6_one_Affected_per_known_affected_identifier
    (k ps ids : value) (ys : list value) (self : VexPackages) :
  getitem k "product_status" = Ok ps ->
  getitem ps "known_affected" = Ok ids ->
  filter_components ids = Ok ys ->
  (forall self' out,
      status_step k (VStr "known_affected") self = (Ok self', out) <->
      exists rs, Forall2 (affected_of (pmap self)) ys rs /\
                 self' = extend_affected self rs /\ out = []) /\
  ((forall y, In y ys -> exists s, y = VStr s) <->
   exists self', status_step k (VStr "known_affected") self = (Ok self', [])).
Proof.
  intros Hps Hids Hys. rewrite status_step_known_affected.
  rewrite Hps. run_pure. rewrite Hids. run_pure. rewrite Hys. run_pure.
  split; [intros self' out; apply affected_loop|]. split.
  - intros H. destruct (affected_records_exist (pmap self) ys H) as [rs Hf].
    exists (extend_affected self rs). apply affected_loop. eauto.
  - intros [self' H] y Hy. apply affected_loop in H as (rs & Hf & _).
    apply (affected_records_of_strs _ _ _ Hf y Hy).
Qed.

(** X7: likewise for the identifiers listed as known not affected: once
    filtered they are accepted exactly when each of them is a str, and each
    gives one [NotAffected] record, in order, holding what follows the
    first colon of the identifier as its one component. *)
Theorem X7_one_NotAffected_per_known_not_affected_identifier
    (k ps ids : value) (ys : list value) (self : VexPackages) :
  getitem k "product_status" = Ok ps ->
  getitem ps "known_not_affected" = Ok ids ->
  filter_components ids = Ok ys ->
  (forall self' out,
      status_step k (VStr "known_not_affected") self = (Ok self', out) <->
      exists rs, Forall2 (not_affected_of (pmap self)) ys rs /\
                 self' = extend_not_affected self rs /\ out = []) /\
  ((forall y, In y ys -> exists s, y = VStr s) <->
   exists self', status_step k (VStr "known_not_affected") self = (Ok self', [])).
Proof.
  intros Hps Hids Hys. rewrite status_step_known_not_affected.
  rewrite Hps. run_pure. rewrite Hids. run_pure. rewrite Hys. run_pure.
  split; [intros self' out; apply not_affected_loop|]. split.
  - intros H. destruct (not_affected_records_exist (pmap self) ys H) as [rs Hf].
    exists (extend_not_affected self rs). apply not_affected_loop. eauto.
  - intros [self' H] y Hy. apply not_affected_loop in H as (rs & Hf & _).
    apply (not_affected_records_of_strs _ _ _ Hf y Hy).
Qed.

(** * What a run keeps *)

Lemma grows_extend_wontfix (self : VexPackages) (ws : list WontFix) :
  grows self (extend_wontfix self ws) (repeat "----hit----" (length ws)).
Proof.
  unfold grows. repeat split. exists [], [], ws, [], [].
  simpl. rewrite !app_nil_r. repeat split.
Qed.

Lemma remediation_step_grows (x : value) (self self' : VexPackages)
    (out : list string) :
  remediation_step x self = (Ok self', out) -> grows self self' out.
Proof.
  intros H.
  destruct (remediation_step_ok_inv x self self' out H)
    as (cat & _ & [(_ & -> & r & ->)|[(_ & -> & w & ->)|
                   [(_ & ws & -> & ->)|(_ & _ & _ & -> & ->)]]]).
  - apply grows_add_fix.
  - apply grows_add_workaround.
  - apply grows_extend_wontfix.
  - apply grows_refl.
Qed.

Lemma status_step_grows (k x : value) (self self' : VexPackages)
    (out : list string) :
  status_step k x self = (Ok self', out) -> grows self self' out.
Proof.
  intros H. destruct (eq_str x "known_affected") eqn:E1.
  { apply eq_str_true in E1. subst x. rewrite status_step_known_affected in H.
    split_run H. simpl.
    apply (loop_grows affected_step _ affected_step_grows _ _ _ H). }
  destruct (eq_str x "known_not_affected") eqn:E2.
  { apply eq_str_true in E2. subst x.
    rewrite status_step_known_not_affected in H. split_run H. simpl.
    apply (loop_grows not_affected_step _ not_affected_step_grows _ _ _ H). }
  rewrite (status_step_other k x self E1 E2) in H. inversion H; subst.
  apply grows_refl.
Qed.

Lemma vulnerability_step_grows (k : value) (self self' : VexPackages)
    (out : list string) :
  vulnerability_step k self = (Ok self', out) -> grows self self' out.
Proof.
  unfold vulnerability_step. intros H.
  apply bind_ok_inv in H as (has1 & o1 & o2 & H1 & H & ->).
  apply lift_ok in H1 as [_ ->].
  apply bind_ok_inv in H as (s1 & o3 & o4 & H2 & H & ->).
  apply bind_ok_inv in H as (has2 & o5 & o6 & H3 & H & ->).
  apply lift_ok in H3 as [_ ->]. simpl.
  apply (grows_trans self s1 self').
  - destruct has1.
    + split_run H2. simpl.
      apply (loop_grows remediation_step _ remediation_step_grows _ _ _ H2).
    + apply ret_ok in H2 as [<- ->]. apply grows_refl.
  - destruct has2.
    + split_run H. simpl.
      apply (loop_grows (status_step k) _ (status_step_grows k) _ _ _ H).
    + apply ret_ok in H as [<- ->]. apply grows_refl.
Qed.

Lemma parse_packages_grows (self self' : VexPackages) (out : list string) :
  parse_packages self = (Ok self', out) ->
  grows (clear_buckets self) self' out.
Proof.
  unfold parse_packages. intros H. split_run H. simpl.
  apply (loop_grows vulnerability_step _ vulnerability_step_grows _ _ _ H).
Qed.

Lemma for_eachM_skip {A S} (l : list A) (body : A -> S -> M S) (s : S) :
  (forall a, In a l -> body a s = (Ok s, [])) ->
  for_eachM l body s = (Ok s, []).
Proof.
  induction l as [|a l IH]; intros H; simpl; [reflexivity|].
  rewrite (H a (or_introl eq_refl)).
  change (@pair (result S) (list string) (Ok s) []) with (ret s).
  rewrite bind_ret. apply IH. intros a' Ha'. apply H. right. exact Ha'.
Qed.

(** X8: only the keys [known_affected] and [known_not_affected] of
    [product_status] are read.  A vulnerability without [remediations]
    whose [product_status] holds only other keys ([fixed],
    [under_investigation], ...) leaves every bucket as it was, prints
    nothing and raises nothing, whatever stands under these keys. *)
Theorem X8_other_status_keys_are_not_read
    (dk d : list (string * value)) (self : VexPackages) :
  lookup "remediations" dk = None ->
  lookup "product_status" dk = Some (VDict d) ->
  Forall (fun key : string =>
            key <> "known_affected" /\ key <> "known_not_affected")
    (map fst d) ->
  vulnerability_step (VDict dk) self = (Ok self, []).
Proof.
  intros Hr Hs Hk. unfold vulnerability_step. simpl contains.
  rewrite !mem_lookup, Hr, Hs. run_pure. unfold getitem. rewrite Hs. run_pure.
  apply for_eachM_skip. intros x Hx.
  apply in_map_iff in Hx as ([key v] & <- & Hin). simpl.
  rewrite Forall_forall in Hk.
  destruct (Hk key) as [H1 H2]; [apply in_map_iff; exists (key, v); auto|].
  apply status_step_other; simpl; apply String.eqb_neq; assumption.
Qed.

(** X9: handling one vulnerability never removes, changes or reorders what
    the buckets already hold: each bucket afterwards is the bucket before
    with records appended at its end, the document and the index are
    untouched, and what is printed is one line for each record appended to
    [wontfix].  So the records of the vulnerabilities of a document pile up
    in the same five buckets, in document order. *)
Theorem X9_a_vulnerability_only_appends_to_the_buckets
    (k : value) (self self' : VexPackages) (out : list string) :
  vulnerability_step k self = (Ok self', out) -> grows self self' out.
Proof. apply vulnerability_step_grows. Qed.

(** X10: when the constructor completes, the document has a
    [product_tree] with [branches] and has [vulnerabilities]; the object
    holds the document itself and the index as [build_product_tree] left
    it, which the classification has not touched; and the lines printed
    are as many as the records of the [wontfix] bucket. *)
Theorem X10_what_a_completed_constructor_guarantees
    (self self' : VexPackages) (vexdata : value) (out : list string) :
  VexPackages_init self vexdata = (Ok self', out) ->
  (exists tree bs vs,
      getitem vexdata "product_tree" = Ok tree /\
      getitem tree "branches" = Ok bs /\
      getitem vexdata "vulnerabilities" = Ok vs) /\
  raw self' = vexdata /\
  (exists s1, build_product_tree (set_raw self vexdata) = Ok s1 /\
              pmap self' = pmap s1) /\
  out = repeat "----hit----" (length (wontfix self')).
Proof.
  unfold VexPackages_init. intros H.
  apply bind_ok_inv in H as (s1 & o1 & o2 & Hb & Hp & ->).
  apply lift_ok in Hb as [Hb ->]. simpl.
  pose proof (build_product_tree_raw _ _ Hb) as Hraw. simpl in Hraw.
  pose proof (parse_packages_grows _ _ _ Hp)
    as (Hr & Hpm & fs & was & wfs & afs & nfs & _ & _ & Hw & _ & _ & ->).
  simpl in Hr, Hpm, Hw. split; [|split; [|split]].
  - unfold build_product_tree in Hb. simpl in Hb.
    destruct (getitem vexdata "product_tree") as [tree|] eqn:Et;
      [|discriminate Hb].
    simpl in Hb.
    destruct (getitem tree "branches") as [bs|] eqn:Ebs; [|discriminate Hb].
    unfold parse_packages in Hp. simpl in Hp. rewrite Hraw in Hp.
    destruct (getitem vexdata "vulnerabilities") as [vs|] eqn:Ev;
      [|discriminate Hp].
    exists tree, bs, vs. repeat split; auto.
  - congruence.
  - exists s1. auto.
  - rewrite Hw. reflexivity.
Qed.

(** * The advisory id *)

Lemma split_app (sep : ascii) (a b : string) :
  split sep (a ++ String sep b)%string = split sep a ++ split sep b.
Proof.
  induction a as [|c a IH]; simpl.
  - rewrite Ascii.eqb_refl. reflexivity.
  - destruct (Ascii.eqb c sep); rewrite IH; [reflexivity|].
    pose proof (split_not_nil sep a) as Hne.
    destruct (split sep a) as [|seg segs]; [contradiction|reflexivity].
Qed.

Lemma last_app_right {A} (l1 l2 : list A) (d : A) :
  l2 <> [] -> last (l1 ++ l2) d = last l2 d.
Proof.
  intros Hne. induction l1 as [|a l1 IH]; [reflexivity|].
  simpl. rewrite IH. destruct (l1 ++ l2) eqn:E; [|reflexivity].
  apply app_eq_nil in E as [_ E]. contradiction.
Qed.

(** The last segment of a str is what follows its last separator, and the
    whole str when it has none. *)
Lemma last_segment (sep : ascii) (u pre id : string) :
  has_char sep id = false ->
  u = (pre ++ String sep id)%string \/ u = id ->
  last (split sep u) "" = id.
Proof.
  intros Hid [->| ->].
  - rewrite split_app, last_app_right by apply split_not_nil.
    rewrite (split_no_sep sep id Hid). reflexivity.
  - rewrite (split_no_sep sep id Hid). reflexivity.
Qed.

(** X11: the advisory id [Fix.__init__] takes from a URL for a marker found
    in it is what follows the last slash of the URL, prefixed with the
    marker and a hyphen for the vendor Gentoo: the whole URL when it holds
    no slash, and the empty str when it ends in a slash. *)
Theorem X11_the_advisory_id_is_what_follows_the_last_slash
    (v u pre id vendor : string) (self : Fix) :
  Fix_url self = VStr u ->
  has_char slash id = false ->
  u = (pre ++ "/" ++ id)%string \/ u = id ->
  substring_of v u = true ->
  assoc v VENDOR_ADVISORY = Some vendor ->
  Fix_vendor_step v self
  = Ok (mkFix
          (VStr (if String.eqb vendor "Gentoo" then (v ++ "-" ++ id)%string
                 else id))
          (VStr u) (Fix_components self) (Some vendor) (Fix_product self)).
Proof.
  intros Hu Hid Hcut Hs Ha. unfold Fix_vendor_step. rewrite Hu.
  cbn [contains rbind split_value]. rewrite Hs. cbn [rbind]. rewrite Ha.
  rewrite (last_segment slash u pre id Hid Hcut). reflexivity.
Qed.

(** * The first identifier that does not unpack *)

Lemma WontFix_init_bad_arity (s : string) (x d : value) (pm : pmap_t) :
  getitem x "details" = Ok d ->
  length (split colon s) <> 2 ->
  WontFix_init (VStr s) x pm = (Err ValueError, ["----hit----"]).
Proof.
  intros Hd Hn. unfold WontFix_init. rewrite Hd. simpl split_value.
  destruct (split colon s) as [|p [|c [|v segs]]]; try reflexivity.
  exfalso. apply Hn. reflexivity.
Qed.

Lemma Fix_component_step_bad_arity (s : string) (f : Fix) (pm : pmap_t) :
  length (split colon s) <> 3 ->
  Fix_component_step pm (VStr s) f = Err ValueError.
Proof.
  intros Hn. unfold Fix_component_step. simpl split_value.
  destruct (split colon s) as [|p [|c [|v [|w segs]]]]; try reflexivity.
  exfalso. apply Hn. reflexivity.
Qed.

Lemma wontfix_loop_stops (x d : value) (ys1 ys2 : list value) (s : string)
    (ws : list WontFix) (self : VexPackages) :
  getitem x "details" = Ok d ->
  length (split colon s) <> 2 ->
  Forall2 (wontfix_of d (pmap self)) ys1 ws ->
  for_eachM (ys1 ++ VStr s :: ys2) (wontfix_step x) self
  = (Err ValueError, repeat "----hit----" (S (length ys1))).
Proof.
  intros Hd Hn Hf. revert self Hf.
  induction ys1 as [|y ys1 IH] in ws |- *; intros self Hf.
  - cbn [app for_eachM]. unfold wontfix_step.
    rewrite (WontFix_init_bad_arity s x d (pmap self) Hd Hn). reflexivity.
  - inversion Hf as [|? w ? ws' Hw Hf']; subst.
    cbn [app for_eachM].
    rewrite (wontfix_step_ok x y d w self Hd Hw). unfold bind.
    rewrite (IH ws' (add_wontfix self w) Hf'). reflexivity.
Qed.

Lemma component_loop_stops (pm : pmap_t) (ys1 ys2 : list value) (s : string)
    (comps : list string) (f : Fix) :
  length (split colon s) <> 3 ->
  Forall2 fix_component_of ys1 comps ->
  for_each (ys1 ++ VStr s :: ys2) (Fix_component_step pm) f = Err ValueError.
Proof.
  intros Hn Hf. revert f.
  induction Hf as [|y comp ys1 comps (p & c & v & -> & Hp & Hc & Hv & _) _ IH];
    intros f.
  - cbn [app for_each]. rewrite (Fix_component_step_bad_arity s f pm Hn).
    reflexivity.
  - cbn [app for_each].
    rewrite (Fix_component_step_three p c v f pm Hp Hc Hv). cbn [rbind].
    apply IH.
Qed.

(** X12: a [no_fix_planned] remediation stops at the first identifier that
    does not split into exactly two segments: the exception is ValueError,
    the identifiers after it are not looked at, the records already made
    are lost with the exception, and one line has been printed for each
    identifier up to and including the offending one. *)
Theorem X12_no_fix_planned_stops_at_the_first_bad_identifier
    (x d : value) (ys1 ys2 : list value) (s : string) (ws : list WontFix)
    (self : VexPackages) :
  getitem x "category" = Ok (VStr "no_fix_planned") ->
  getitem x "details" = Ok d ->
  getitem x "product_ids" = Ok (VList (ys1 ++ VStr s :: ys2)) ->
  Forall2 (wontfix_of d (pmap self)) ys1 ws ->
  length (split colon s) <> 2 ->
  remediation_step x self
  = (Err ValueError, repeat "----hit----" (S (length ys1))).
Proof.
  intros Hcat Hd Hids Hf Hn.
  rewrite (remediation_step_no_fix_planned x self Hcat), Hids. run_pure.
  apply (wontfix_loop_stops x d ys1 ys2 s ws self Hd Hn Hf).
Qed.

(** X13: a [vendor_fix] remediation with a str URL stops at the first kept
    identifier that does not split into exactly three segments: the
    exception is ValueError, whatever the marker found in the URL, and no
    [Fix] record is added. *)
Theorem X13_vendor_fix_stops_at_the_first_bad_identifier
    (x ids : value) (u s : string) (ys1 ys2 : list value)
    (comps : list string) (self : VexPackages) :
  getitem x "category" = Ok (VStr "vendor_fix") ->
  getitem x "url" = Ok (VStr u) ->
  getitem x "product_ids" = Ok ids ->
  filter_components ids = Ok (ys1 ++ VStr s :: ys2) ->
  Forall2 fix_component_of ys1 comps ->
  length (split colon s) <> 3 ->
  remediation_step x self = (Err ValueError, []).
Proof.
  intros Hcat Hurl Hids Hys Hf Hn.
  rewrite (remediation_step_vendor_fix x self Hcat).
  unfold Fix_init. rewrite Hurl. cbn [rbind].
  destruct (vendor_loop_total (map fst VENDOR_ADVISORY) u
              (mkFix VNone (VStr u) [] None None) eq_refl (incl_refl _))
    as [self1 ->].
  cbn [rbind]. rewrite Hids. cbn [rbind]. rewrite Hys. cbn [rbind].
  rewrite (component_loop_stops (pmap self) ys1 ys2 s comps self1 Hn Hf).
  reflexivity.
Qed.

(** X14: the [details] of a [no_fix_planned] remediation are read once for
    each identifier, after the line of that identifier is printed: when
    they are missing, a remediation that lists no identifier is still
    accepted, and one that lists any raises at its first identifier, with
    that one line printed and whatever the identifier is. *)
Theorem X14_details_are_read_for_each_identifier
    (x : value) (e : exn) (self : VexPackages) :
  getitem x "category" = Ok (VStr "no_fix_planned") ->
  getitem x "details" = Err e ->
  (getitem x "product_ids" = Ok (VList []) ->
   remediation_step x self = (Ok self, [])) /\
  (forall y ys, getitem x "product_ids" = Ok (VList (y :: ys)) ->
   remediation_step x self = (Err e, ["----hit----"])).
Proof.
  intros Hcat Hd. rewrite (remediation_step_no_fix_planned x self Hcat). split.
  - intros ->. reflexivity.
  - intros y ys ->. run_pure. cbn [for_eachM].
    unfold wontfix_step, WontFix_init. rewrite Hd. reflexivity.
Qed.

End Package.

(** * The sample documents, evaluated *)

(** The end-to-end example: one leaf three levels down and one [vendor_fix]
    remediation give one index entry and one [Fix] record. *)
Example widget_doc_is_classified :
  VexPackages_init sample_filter sample_VENDOR_ADVISORY blank
    (doc_of widget_tree [VDict [("remediations", VList [fix_remediation])]])
  = (Ok (mkVexPackages
           (doc_of widget_tree [VDict [("remediations", VList [fix_remediation])]])
           widget_pmap
           [mkFix (VStr "RHSA-2024-0001")
              (VStr "https://access.redhat.com/errata/RHSA-2024-0001")
              ["widget:1.0-2.el9"] (Some "Red Hat") (Some (VStr "Widget 1.0"))]
           [] [] [] []),
     []).
Proof. reflexivity. Qed.

Example shallow_tree_index_is_empty :
  build_product_tree (set_raw blank (doc_of shallow_tree []))
  = Ok (mkVexPackages (doc_of shallow_tree []) [] [] [] [] [] []).
Proof. reflexivity. Qed.

Example one_segment_doc_is_classified :
  VexPackages_init sample_filter sample_VENDOR_ADVISORY blank one_segment_doc
  = (Ok (mkVexPackages one_segment_doc widget_pmap [] [] []
           [mkAffected [""] VNone] []),
     []).
Proof. reflexivity. Qed.

Example one_segment_remediation_doc_raises :
  VexPackages_init sample_filter sample_VENDOR_ADVISORY blank
    one_segment_remediation_doc
  = (Err ValueError, ["----hit----"; "----hit----"]).
Proof. reflexivity. Qed.

Example unmarked_remediation_record :
  Fix_init sample_filter sample_VENDOR_ADVISORY unmarked_remediation widget_pmap
  = Ok (mkFix VNone (VStr "https://example.org/advisories/ADV-1")
          ["widget:1.0-2.el9"] None (Some (VStr "Widget 1.0"))).
Proof. reflexivity. Qed.

Example gentoo_advisory_id :
  Fix_init sample_filter sample_VENDOR_ADVISORY
    (VDict [("url", VStr "https://security.gentoo.org/GLSA/202401-01");
            ("product_ids", VList [])])
    widget_pmap
  = Ok (mkFix (VStr "GLSA-202401-01")
          (VStr "https://security.gentoo.org/GLSA/202401-01")
          [] (Some "Gentoo") None).
Proof. reflexivity. Qed.

Example two_product_remediation_record :
  Fix_init sample_filter sample_VENDOR_ADVISORY two_product_remediation
    two_product_pmap
  = Ok (mkFix (VStr "RHSA-2024-0002")
          (VStr "https://access.redhat.com/errata/RHSA-2024-0002")
          ["widget:1.0-2.el9"; "gadget:2.1-1.el9"] (Some "Red Hat")
          (Some (VStr "Gadget 2"))).
Proof. reflexivity. Qed.

(** * The theorems at sample documents *)

Lemma C1_witness :
  getitem (raw (set_raw blank (doc_of widget_tree []))) "product_tree"
    = Ok widget_tree /\
  (tree_ok widget_tree = true ->
   exists self', build_product_tree (set_raw blank (doc_of widget_tree [])) = Ok self') /\
  (forall self',
     build_product_tree (set_raw blank (doc_of widget_tree [])) = Ok self' ->
     map Some (pmap self') = entries_of (nodes_at_depth 3 widget_tree)).
Proof.
  split; [reflexivity|].
  apply (C1_index_is_the_depth_three_product_names
           (set_raw blank (doc_of widget_tree [])) widget_tree).
  reflexivity.
Defined.

(** The claim as the specification states it, for a node at any depth, fails
    on [shallow_tree]: its [product_name] node is two levels down, the walk
    completes, and the index is empty. *)
Lemma C1_node_at_depth_two_is_not_indexed :
  ~ (forall (self self' : VexPackages) (tree c : value) (n : nat)
            (e : value * value),
        getitem (raw self) "product_tree" = Ok tree ->
        build_product_tree self = Ok self' ->
        In c (nodes_at_depth n tree) ->
        is_product_name c = true ->
        entry_of c = Some e ->
        In e (pmap self')).
Proof.
  intros H.
  specialize (H (set_raw blank (doc_of shallow_tree []))
                (set_pmap (set_raw blank (doc_of shallow_tree [])) [])
                shallow_tree widget_leaf 2%nat
                (VStr "WID1", VStr "Widget 1.0")
                eq_refl eq_refl (or_introl eq_refl) eq_refl eq_refl).
  exact H.
Qed.


Lemma C7_witness :
  getitem fix_remediation "category" = Ok (VStr "vendor_fix") /\
  getitem fix_remediation "url"
    = Ok (VStr "https://access.redhat.com/errata/RHSA-2024-0001") /\
  getitem fix_remediation "product_ids"
    = Ok (VList [VStr "WID1:widget:1.0-2.el9"]) /\
  sample_filter (VList [VStr "WID1:widget:1.0-2.el9"])
    = Ok [VStr "WID1:widget:1.0-2.el9"] /\
  exists self' r,
    remediation_step sample_filter sample_VENDOR_ADVISORY fix_remediation indexed
    = (Ok self', []) /\
    r = mkFix (VStr "RHSA-2024-0001")
          (VStr "https://access.redhat.com/errata/RHSA-2024-0001")
          ["widget:1.0-2.el9"] (Some "Red Hat") (Some (VStr "Widget 1.0")) /\
    fixes self' = fixes indexed ++ [r] /\
    workarounds self' = workarounds indexed /\
    wontfix self' = wontfix indexed /\
    affected self' = affected indexed /\
    not_affected self' = not_affected indexed /\
    Fix_vendor r = Some "Red Hat" /\
    Fix_id r = VStr (advisory_id "RHSA" "Red Hat"
                       "https://access.redhat.com/errata/RHSA-2024-0001") /\
    Forall2 fix_component_of [VStr "WID1:widget:1.0-2.el9"] (Fix_components r).
Proof.
  split; [reflexivity|]. split; [reflexivity|]. split; [reflexivity|].
  split; [reflexivity|].
  destruct (C7_one_Fix_per_vendor_fix_remediation sample_filter
              sample_VENDOR_ADVISORY fix_remediation
              (VList [VStr "WID1:widget:1.0-2.el9"])
              "https://access.redhat.com/errata/RHSA-2024-0001"
              [VStr "WID1:widget:1.0-2.el9"] indexed
              eq_refl eq_refl eq_refl eq_refl) as [_ Hres].
  destruct (Hres _ _ eq_refl)
    as (r & Hinit & _ & _ & Hfix & Hwa & Hwf & Haf & Hnf & _ & _ & _ & Hf
        & _ & Hlast).
  destruct (Hlast [] "RHSA" eq_refl) as (vendor & Ha & Hv & Hid).
  inversion Ha; subst vendor.
  eexists _, r. split; [reflexivity|].
  split; [inversion Hinit; reflexivity|].
  repeat (split; [assumption|]). exact Hf.
Defined.

(** The claim as the specification states it fails on
    [unmarked_remediation]: its record is added, and the id of the record
    is [None], not the last segment of the URL. *)
Lemma C7_id_is_None_without_a_marker :
  ~ (forall (filter_components : value -> result (list value))
            (VENDOR_ADVISORY : list (string * string))
            (x : value) (u : string) (self self' : VexPackages)
            (out : list string),
        getitem x "category" = Ok (VStr "vendor_fix") ->
        getitem x "url" = Ok (VStr u) ->
        remediation_step filter_components VENDOR_ADVISORY x self
        = (Ok self', out) ->
        exists r,
          fixes self' = fixes self ++ [r] /\
          (Fix_id r = VStr (last (split slash u) "") \/
           exists v, Fix_id r = VStr (v ++ "-" ++ last (split slash u) ""))).
Proof.
  intros H.
  destruct (H sample_filter sample_VENDOR_ADVISORY unmarked_remediation
              "https://example.org/advisories/ADV-1" indexed _ _
              eq_refl eq_refl eq_refl) as (r & Hr & Hid).
  simpl in Hr. inversion Hr; subst r. simpl in Hid.
  destruct Hid as [Hid|[v Hid]]; discriminate Hid.
Qed.



Lemma C3_witness :
  has_char colon "foo" = false /\
  getitem one_segment_remediation_doc "vulnerabilities"
    = Ok (VList [VDict [("remediations", VList [one_segment_remediation])]]) /\
  handled_by_remediation sample_filter one_segment_remediation "foo" /\
  fails (VexPackages_init sample_filter sample_VENDOR_ADVISORY blank
           one_segment_remediation_doc) /\
  affected_step (VStr "foo") indexed
  = (Ok (add_affected indexed (mkAffected [""] VNone)), []).
Proof.
  assert (Hh : handled_by_remediation sample_filter one_segment_remediation "foo").
  { left. split; [reflexivity|].
    exists [VStr "WID1:widget"; VStr "foo"]. split; [reflexivity|].
    right. left. reflexivity. }
  split; [reflexivity|]. split; [reflexivity|]. split; [exact Hh|].
  destruct (C3_one_segment_identifier_in_a_remediation_raises sample_filter
              sample_VENDOR_ADVISORY one_segment_remediation_doc
              (VDict [("remediations", VList [one_segment_remediation])])
              one_segment_remediation
              [VDict [("remediations", VList [one_segment_remediation])]]
              [one_segment_remediation] "foo" blank eq_refl)
    as (Hfail & _ & _).
  split.
  - exact (Hfail eq_refl (or_introl eq_refl) eq_refl (or_introl eq_refl) Hh).
  - exact (proj1 (proj2 (C3_one_segment_identifier_in_a_remediation_raises
                           sample_filter sample_VENDOR_ADVISORY VNone VNone VNone
                           [] [] "foo" indexed eq_refl))).
Defined.

(** The claim as the specification states it fails on [one_segment_doc]:
    the identifier [foo] is listed as known affected and kept by the filter,
    and the document is classified without an exception, with a record for
    [foo]. *)
Lemma C3_one_segment_known_affected_is_classified :
  ~ (forall (filter_components : value -> result (list value))
            (VENDOR_ADVISORY : list (string * string))
            (doc k ps ids : value) (ks ys : list value) (s : string)
            (self : VexPackages),
        getitem doc "vulnerabilities" = Ok (VList ks) -> In k ks ->
        getitem k "product_status" = Ok ps ->
        getitem ps "known_affected" = Ok ids ->
        filter_components ids = Ok ys -> In (VStr s) ys ->
        has_char colon s = false ->
        fails (VexPackages_init filter_components VENDOR_ADVISORY self doc)).
Proof.
  intros H.
  exact (H sample_filter sample_VENDOR_ADVISORY one_segment_doc
           (VDict [("product_status",
                    VDict [("known_affected", VList [VStr "foo"])])])
           (VDict [("known_affected", VList [VStr "foo"])])
           (VList [VStr "foo"])
           [VDict [("product_status",
                    VDict [("known_affected", VList [VStr "foo"])])]]
           [VStr "foo"] "foo" blank
           eq_refl (or_introl eq_refl) eq_refl eq_refl eq_refl
           (or_introl eq_refl) eq_refl).
Qed.

(** C2: [Affected] and [NotAffected] cut the identifier [p:c:v:extra] into
    the product id [p] and the component [c:v:extra], as the claim says;
    [Fix] and [WontFix] unpack the segments into a fixed number of names
    instead and raise ValueError, [Fix] on [p:c:v:extra] and on [p:c],
    [WontFix] on [p:c:v], so that a document listing [p:c:v] under a
    [no_fix_planned] remediation, or [p:c:v:extra] under a [vendor_fix]
    remediation whose filter keeps it, is not classified at all. *)
Theorem C2_Fix_and_WontFix_unpack_a_fixed_number_of_segments
    (filter_components : value -> result (list value))
    (VENDOR_ADVISORY : list (string * string)) :
  Affected_init (VStr "p:c:v:extra") widget_pmap
    = Ok (mkAffected ["c:v:extra"] VNone) /\
  NotAffected_init (VStr "p:c:v:extra") widget_pmap
    = Ok (mkNotAffected ["c:v:extra"] VNone) /\
  Fix_component_step widget_pmap (VStr "p:c:v:extra")
    (mkFix VNone VNone [] None None) = Err ValueError /\
  Fix_component_step widget_pmap (VStr "p:c")
    (mkFix VNone VNone [] None None) = Err ValueError /\
  WontFix_init (VStr "p:c:v")
    (VDict [("details", VStr "Out of support scope")]) widget_pmap
    = (Err ValueError, ["----hit----"]) /\
  VexPackages_init filter_components VENDOR_ADVISORY blank
    three_segment_no_fix_doc
    = (Err ValueError, ["----hit----"]) /\
  VexPackages_init sample_filter sample_VENDOR_ADVISORY blank
    four_segment_fix_doc
    = (Err ValueError, []).
Proof. repeat split; reflexivity. Qed.

(** C5: a vulnerability with neither [remediations] nor [product_status]
    and a sub-branch with no [branches] are passed over, as the claim says,
    but a branch directly under the product tree that has no [branches]
    makes [build_product_tree] raise KeyError: that level is read without
    the test the next level has. *)
Theorem C5_branch_without_branches_raises_KeyError
    (filter_components : value -> result (list value))
    (VENDOR_ADVISORY : list (string * string)) :
  VexPackages_init filter_components VENDOR_ADVISORY blank no_sections_doc
    = (Ok (mkVexPackages no_sections_doc [] [] [] [] [] []), []) /\
  build_product_tree (set_raw blank flat_branch_doc) = Err KeyError /\
  VexPackages_init filter_components VENDOR_ADVISORY blank flat_branch_doc
    = (Err KeyError, []).
Proof. repeat split; reflexivity. Qed.

(** C4: the identifier [UNKNOWN:pkg:1.0], whose product id the index does
    not hold, gets its record with product [None] where it is listed as
    known affected, as known not affected or under a [vendor_fix]
    remediation, as the claim says, and so does [UNKNOWN:pkg] under a
    [no_fix_planned] remediation; but under a [no_fix_planned] remediation
    [UNKNOWN:pkg:1.0] itself makes the constructor raise ValueError, with
    no record and no object: [WontFix] unpacks the segments into two
    names. *)
Theorem C4_unknown_product_under_no_fix_planned_raises
    (filter_components : value -> result (list value))
    (VENDOR_ADVISORY : list (string * string)) :
  product_lookup "UNKNOWN" widget_pmap = VNone /\
  VexPackages_init filter_components VENDOR_ADVISORY blank unknown_no_fix_doc
    = (Err ValueError, ["----hit----"]) /\
  VexPackages_init filter_components VENDOR_ADVISORY blank
    unknown_two_segment_no_fix_doc
    = (Ok (mkVexPackages unknown_two_segment_no_fix_doc widget_pmap [] []
             [mkWontFix (VStr "Out of support scope") "pkg" VNone] [] []),
       ["----hit----"]) /\
  VexPackages_init sample_filter sample_VENDOR_ADVISORY blank unknown_status_doc
    = (Ok (mkVexPackages unknown_status_doc widget_pmap [] [] []
             [mkAffected ["pkg:1.0"] VNone]
             [mkNotAffected ["pkg:1.0"] VNone]),
       []) /\
  VexPackages_init sample_filter sample_VENDOR_ADVISORY blank unknown_fix_doc
    = (Ok (mkVexPackages unknown_fix_doc widget_pmap
             [mkFix (VStr "RHSA-2024-0001")
                (VStr "https://access.redhat.com/errata/RHSA-2024-0001")
                ["pkg:1.0"] (Some "Red Hat") (Some VNone)]
             [] [] [] []),
       []).
Proof. repeat split; reflexivity. Qed.

(** C6: a [no_fix_planned] remediation whose identifiers all have two
    segments gets one [WontFix] record for each of them, unfiltered and in
    order, with the shared details as reason, as the claim says; one that
    lists [UNKNOWN:pkg:1.0] after [WID1:widget] raises ValueError at that
    identifier, after a line is printed for each of the two, and neither
    record nor object is left: [WontFix] unpacks the segments into two
    names. *)
Theorem C6_no_fix_planned_identifier_of_three_segments_raises
    (filter_components : value -> result (list value))
    (VENDOR_ADVISORY : list (string * string)) :
  VexPackages_init filter_components VENDOR_ADVISORY blank
    (remediation_doc no_fix_remediation)
    = (Ok (mkVexPackages (remediation_doc no_fix_remediation) widget_pmap [] []
             [mkWontFix (VStr "Out of support scope") "widget"
                (VStr "Widget 1.0");
              mkWontFix (VStr "Out of support scope") "pkg" VNone]
             [] []),
       ["----hit----"; "----hit----"]) /\
  remediation_step filter_components VENDOR_ADVISORY mixed_no_fix_remediation
    indexed
    = (Err ValueError, ["----hit----"; "----hit----"]) /\
  VexPackages_init filter_components VENDOR_ADVISORY blank
    (remediation_doc mixed_no_fix_remediation)
    = (Err ValueError, ["----hit----"; "----hit----"]).
Proof. repeat split; reflexivity. Qed.

(** C10: a [vendor_fix] remediation whose URL holds no marker and whose
    kept identifier has three segments gets its [Fix] record, with id
    [None] and no vendor attribute, as the claim says; one whose kept
    identifier is [WID1:widget] is rejected instead, whatever the markers:
    [Fix.__init__] raises ValueError, no record is added and no object is
    left, since it unpacks the segments into three names. *)
Theorem C10_marker_less_vendor_fix_of_two_segments_raises
    (filter_components : value -> result (list value))
    (VENDOR_ADVISORY : list (string * string)) (self : VexPackages) :
  filter_components (VList [VStr "WID1:widget"]) = Ok [VStr "WID1:widget"] ->
  remediation_step filter_components VENDOR_ADVISORY
    two_segment_unmarked_remediation self
    = (Err ValueError, []) /\
  VexPackages_init sample_filter sample_VENDOR_ADVISORY blank
    (remediation_doc two_segment_unmarked_remediation)
    = (Err ValueError, []) /\
  VexPackages_init sample_filter sample_VENDOR_ADVISORY blank
    (remediation_doc unmarked_remediation)
    = (Ok (mkVexPackages (remediation_doc unmarked_remediation) widget_pmap
             [mkFix VNone (VStr "https://example.org/advisories/ADV-1")
                ["widget:1.0-2.el9"] None (Some (VStr "Widget 1.0"))]
             [] [] [] []),
       []) /\
  getattr (Fix_vendor
             (mkFix VNone (VStr "https://example.org/advisories/ADV-1")
                ["widget:1.0-2.el9"] None (Some (VStr "Widget 1.0"))))
    = Err AttributeError.
Proof.
  intros Hkeep. split; [|repeat split; reflexivity].
  rewrite (remediation_step_vendor_fix filter_components VENDOR_ADVISORY
             two_segment_unmarked_remediation self eq_refl).
  unfold Fix_init. cbn [two_segment_unmarked_remediation getitem lookup
                        String.eqb Ascii.eqb Bool.eqb rbind].
  destruct (vendor_loop_total VENDOR_ADVISORY (map fst VENDOR_ADVISORY)
              "https://example.org/advisories/ADV-1"
              (mkFix VNone (VStr "https://example.org/advisories/ADV-1") []
                 None None) eq_refl (incl_refl _)) as [self1 ->].
  cbn [rbind]. rewrite Hkeep. reflexivity.
Qed.

(** * Further theorems at sample documents *)

Lemma X2_witness :
  getitem (raw (set_raw blank (doc_of twin_tree []))) "product_tree"
    = Ok twin_tree /\
  build_product_tree (set_raw blank (doc_of twin_tree []))
    = Ok (mkVexPackages (doc_of twin_tree [])
            [(VStr "GAD2", VStr "Gadget 2"); (VStr "WID1", VStr "Widget 1.0");
             (VStr "WID1", VStr "Widget 1.0 EUS")] [] [] [] [] []) /\
  nodes_at_depth 3 twin_tree = [gadget_leaf] ++ widget_leaf :: [renamed_leaf] /\
  product_lookup "WID1"
    [(VStr "GAD2", VStr "Gadget 2"); (VStr "WID1", VStr "Widget 1.0");
     (VStr "WID1", VStr "Widget 1.0 EUS")]
  = VStr "Widget 1.0".
Proof.
  split; [reflexivity|]. split; [reflexivity|]. split; [reflexivity|].
  apply (X2_an_indexed_product_id_resolves_to_its_first_name
           (set_raw blank (doc_of twin_tree []))
           (mkVexPackages (doc_of twin_tree [])
              [(VStr "GAD2", VStr "Gadget 2"); (VStr "WID1", VStr "Widget 1.0");
               (VStr "WID1", VStr "Widget 1.0 EUS")] [] [] [] [] [])
           twin_tree widget_leaf [gadget_leaf] [renamed_leaf] "WID1"
           (VStr "Widget 1.0") eq_refl eq_refl eq_refl eq_refl eq_refl).
  intros c' n [<-|[]] _ H. discriminate H.
Defined.

Lemma X3_witness :
  getitem (raw (set_raw blank (doc_of bare_tree []))) "product_tree"
    = Ok bare_tree /\
  In bare_leaf (nodes_at_depth 3 bare_tree) /\
  no_entry bare_leaf /\
  is_err (build_product_tree (set_raw blank (doc_of bare_tree []))).
Proof.
  assert (Hin : In bare_leaf (nodes_at_depth 3 bare_tree))
    by (right; left; reflexivity).
  assert (Hbad : no_entry bare_leaf) by (split; [reflexivity|exact I]).
  split; [reflexivity|]. split; [exact Hin|]. split; [exact Hbad|].
  exact (X3_a_product_leaf_without_its_keys_aborts_the_index
           (set_raw blank (doc_of bare_tree [])) bare_tree bare_leaf
           eq_refl Hin Hbad).
Defined.

Lemma X4_witness :
  (exists self',
      remediation_step sample_filter sample_VENDOR_ADVISORY fix_remediation
        indexed = (Ok self', []) /\
      fixes self'
      = fixes indexed
        ++ [mkFix (VStr "RHSA-2024-0001")
              (VStr "https://access.redhat.com/errata/RHSA-2024-0001")
              ["widget:1.0-2.el9"] (Some "Red Hat") (Some (VStr "Widget 1.0"))] /\
      workarounds self' = workarounds indexed /\
      wontfix self' = wontfix indexed) /\
  (exists self',
      remediation_step sample_filter sample_VENDOR_ADVISORY
        workaround_remediation indexed = (Ok self', []) /\
      workarounds self'
      = workarounds indexed
        ++ [mkWorkaround (VStr "Disable the service")
              [VStr "WID1:widget"; VStr "not an identifier"]] /\
      fixes self' = fixes indexed /\ wontfix self' = wontfix indexed).
Proof.
  split.
  - eexists. split; [reflexivity|].
    destruct (X4_a_remediation_fills_the_bucket_of_its_category sample_filter
                sample_VENDOR_ADVISORY fix_remediation indexed _ _ eq_refl)
      as (cat & Hcat & _ & _ & _ & _ & Hcase).
    inversion Hcat; subst cat.
    destruct Hcase as [(_ & _ & (r & Hr & Hf) & Hw & Hx)
                      |[(Hc & _)|[(Hc & _)|(Hc & _)]]];
      try discriminate Hc.
    inversion Hr; subst r. auto.
  - eexists. split; [reflexivity|].
    destruct (X4_a_remediation_fills_the_bucket_of_its_category sample_filter
                sample_VENDOR_ADVISORY workaround_remediation indexed _ _
                eq_refl)
      as (cat & Hcat & _ & _ & _ & _ & Hcase).
    inversion Hcat; subst cat.
    destruct Hcase as [(Hc & _)
                      |[(_ & _ & (d & ids & ws & Hd & Hi & Hf & Hw) & Hfx & Hx)
                       |[(Hc & _)|(_ & Hc & _)]]];
      try discriminate Hc.
    inversion Hd; subst d. inversion Hi; subst ids. inversion Hf; subst ws.
    auto.
Defined.


Lemma X6_witness :
  getitem status_vulnerability "product_status"
    = Ok (VDict [("known_affected", VList [VStr "WID1:widget:1.0"; VStr "foo"]);
                 ("known_not_affected", VList [VStr "GAD2:gadget:rhel8/tool"])]) /\
  sample_filter (VList [VStr "WID1:widget:1.0"; VStr "foo"])
    = Ok [VStr "WID1:widget:1.0"; VStr "foo"] /\
  exists rs,
    Forall2 (affected_of (pmap indexed)) [VStr "WID1:widget:1.0"; VStr "foo"] rs /\
    extend_affected indexed
      [mkAffected ["widget:1.0"] (VStr "Widget 1.0"); mkAffected [""] VNone]
    = extend_affected indexed rs /\
    @nil string = [].
Proof.
  split; [reflexivity|]. split; [reflexivity|].
  apply (proj1 (X6_one_Affected_per_known_affected_identifier sample_filter
                  status_vulnerability
                  (VDict [("known_affected",
                           VList [VStr "WID1:widget:1.0"; VStr "foo"]);
                          ("known_not_affected",
                           VList [VStr "GAD2:gadget:rhel8/tool"])])
                  (VList [VStr "WID1:widget:1.0"; VStr "foo"])
                  [VStr "WID1:widget:1.0"; VStr "foo"] indexed
                  eq_refl eq_refl eq_refl)).
  reflexivity.
Defined.

Lemma X7_witness :
  getitem status_vulnerability "product_status"
    = Ok (VDict [("known_affected", VList [VStr "WID1:widget:1.0"; VStr "foo"]);
                 ("known_not_affected", VList [VStr "GAD2:gadget:rhel8/tool"])]) /\
  sample_filter (VList [VStr "GAD2:gadget:rhel8/tool"])
    = Ok [VStr "GAD2:gadget:rhel8/tool"] /\
  exists rs,
    Forall2 (not_affected_of two_product_pmap) [VStr "GAD2:gadget:rhel8/tool"] rs /\
    extend_not_affected (set_pmap blank two_product_pmap)
      [mkNotAffected ["gadget:rhel8/tool"] (VStr "Gadget 2")]
    = extend_not_affected (set_pmap blank two_product_pmap) rs /\
    @nil string = [].
Proof.
  split; [reflexivity|]. split; [reflexivity|].
  apply (proj1 (X7_one_NotAffected_per_known_not_affected_identifier
                  sample_filter status_vulnerability
                  (VDict [("known_affected",
                           VList [VStr "WID1:widget:1.0"; VStr "foo"]);
                          ("known_not_affected",
                           VList [VStr "GAD2:gadget:rhel8/tool"])])
                  (VList [VStr "GAD2:gadget:rhel8/tool"])
                  [VStr "GAD2:gadget:rhel8/tool"]
                  (set_pmap blank two_product_pmap)
                  eq_refl eq_refl eq_refl)).
  reflexivity.
Defined.

Lemma X8_witness :
  lookup "remediations" fixed_only_vulnerability = None /\
  lookup "product_status" fixed_only_vulnerability
    = Some (VDict [("fixed", VList [VStr "WID1:widget:1.0-2.el9"])]) /\
  vulnerability_step sample_filter sample_VENDOR_ADVISORY
    (VDict fixed_only_vulnerability) indexed
  = (Ok indexed, []).
Proof.
  split; [reflexivity|]. split; [reflexivity|].
  apply (X8_other_status_keys_are_not_read sample_filter sample_VENDOR_ADVISORY
           fixed_only_vulnerability
           [("fixed", VList [VStr "WID1:widget:1.0-2.el9"])] indexed
           eq_refl eq_refl).
  constructor; [split; discriminate|constructor].
Defined.

Lemma X9_witness :
  exists self' out,
    vulnerability_step sample_filter sample_VENDOR_ADVISORY mixed_vulnerability
      indexed = (Ok self', out) /\
    out = ["----hit----"; "----hit----"] /\
    grows indexed self' out.
Proof.
  eexists _, _. split; [reflexivity|]. split; [reflexivity|].
  exact (X9_a_vulnerability_only_appends_to_the_buckets sample_filter
           sample_VENDOR_ADVISORY mixed_vulnerability indexed _ _ eq_refl).
Defined.

Lemma X10_witness :
  exists self' out,
    VexPackages_init sample_filter sample_VENDOR_ADVISORY blank
      (doc_of widget_tree [mixed_vulnerability]) = (Ok self', out) /\
    raw self' = doc_of widget_tree [mixed_vulnerability] /\
    out = repeat "----hit----" (length (wontfix self')).
Proof.
  eexists _, _. split; [reflexivity|].
  destruct (X10_what_a_completed_constructor_guarantees sample_filter
              sample_VENDOR_ADVISORY blank _
              (doc_of widget_tree [mixed_vulnerability]) _ eq_refl)
    as (_ & Hraw & _ & Hout).
  split; [exact Hraw|exact Hout].
Defined.

Lemma X11_witness :
  has_char slash "202401-01" = false /\
  substring_of "GLSA" "https://security.gentoo.org/GLSA/202401-01" = true /\
  assoc "GLSA" sample_VENDOR_ADVISORY = Some "Gentoo" /\
  Fix_vendor_step sample_VENDOR_ADVISORY "GLSA"
    (mkFix VNone (VStr "https://security.gentoo.org/GLSA/202401-01") []
       None None)
  = Ok (mkFix (VStr "GLSA-202401-01")
          (VStr "https://security.gentoo.org/GLSA/202401-01") []
          (Some "Gentoo") None).
Proof.
  split; [reflexivity|]. split; [reflexivity|]. split; [reflexivity|].
  exact (X11_the_advisory_id_is_what_follows_the_last_slash
           sample_VENDOR_ADVISORY "GLSA"
           "https://security.gentoo.org/GLSA/202401-01"
           "https://security.gentoo.org/GLSA" "202401-01" "Gentoo"
           (mkFix VNone (VStr "https://security.gentoo.org/GLSA/202401-01") []
              None None)
           eq_refl eq_refl (or_introl eq_refl) eq_refl eq_refl).
Defined.

Lemma X12_witness :
  getitem one_segment_remediation "category" = Ok (VStr "no_fix_planned") /\
  getitem one_segment_remediation "details" = Ok (VStr "Out of support scope") /\
  getitem one_segment_remediation "product_ids"
    = Ok (VList ([VStr "WID1:widget"] ++ VStr "foo" :: [])) /\
  Forall2 (wontfix_of (VStr "Out of support scope") (pmap indexed))
    [VStr "WID1:widget"]
    [mkWontFix (VStr "Out of support scope") "widget" (VStr "Widget 1.0")] /\
  length (split colon "foo") <> 2 /\
  remediation_step sample_filter sample_VENDOR_ADVISORY one_segment_remediation
    indexed
  = (Err ValueError, ["----hit----"; "----hit----"]).
Proof.
  assert (Hf : Forall2 (wontfix_of (VStr "Out of support scope") (pmap indexed))
                 [VStr "WID1:widget"]
                 [mkWontFix (VStr "Out of support scope") "widget"
                    (VStr "Widget 1.0")]).
  { constructor; [|constructor]. exists "WID1", "widget".
    repeat split; reflexivity. }
  assert (Hn : length (split colon "foo") <> 2) by (simpl; discriminate).
  split; [reflexivity|]. split; [reflexivity|]. split; [reflexivity|].
  split; [exact Hf|]. split; [exact Hn|].
  exact (X12_no_fix_planned_stops_at_the_first_bad_identifier sample_filter
           sample_VENDOR_ADVISORY one_segment_remediation
           (VStr "Out of support scope") [VStr "WID1:widget"] [] "foo"
           [mkWontFix (VStr "Out of support scope") "widget" (VStr "Widget 1.0")]
           indexed eq_refl eq_refl eq_refl Hf Hn).
Defined.

Lemma X13_witness :
  getitem mixed_fix_remediation "category" = Ok (VStr "vendor_fix") /\
  getitem mixed_fix_remediation "url"
    = Ok (VStr "https://access.redhat.com/errata/RHSA-2024-0001") /\
  sample_filter (VList [VStr "WID1:widget:1.0-2.el9"; VStr "p:c:v:extra"])
    = Ok ([VStr "WID1:widget:1.0-2.el9"] ++ VStr "p:c:v:extra" :: []) /\
  Forall2 fix_component_of [VStr "WID1:widget:1.0-2.el9"] ["widget:1.0-2.el9"] /\
  length (split colon "p:c:v:extra") <> 3 /\
  remediation_step sample_filter sample_VENDOR_ADVISORY mixed_fix_remediation
    indexed
  = (Err ValueError, []).
Proof.
  assert (Hf : Forall2 fix_component_of [VStr "WID1:widget:1.0-2.el9"]
                 ["widget:1.0-2.el9"]).
  { constructor; [|constructor]. exists "WID1", "widget", "1.0-2.el9".
    repeat split; reflexivity. }
  assert (Hn : length (split colon "p:c:v:extra") <> 3) by (simpl; discriminate).
  split; [reflexivity|]. split; [reflexivity|]. split; [reflexivity|].
  split; [exact Hf|]. split; [exact Hn|].
  exact (X13_vendor_fix_stops_at_the_first_bad_identifier sample_filter
           sample_VENDOR_ADVISORY mixed_fix_remediation
           (VList [VStr "WID1:widget:1.0-2.el9"; VStr "p:c:v:extra"])
           "https://access.redhat.com/errata/RHSA-2024-0001" "p:c:v:extra"
           [VStr "WID1:widget:1.0-2.el9"] [] ["widget:1.0-2.el9"] indexed
           eq_refl eq_refl eq_refl eq_refl Hf Hn).
Defined.

Lemma X14_witness :
  getitem (VDict [("category", VStr "no_fix_planned");
                  ("product_ids", VList [VStr "WID1:widget"])]) "category"
    = Ok (VStr "no_fix_planned") /\
  getitem (VDict [("category", VStr "no_fix_planned");
                  ("product_ids", VList [VStr "WID1:widget"])]) "details"
    = Err KeyError /\
  remediation_step sample_filter sample_VENDOR_ADVISORY
    (VDict [("category", VStr "no_fix_planned");
            ("product_ids", VList [VStr "WID1:widget"])]) indexed
  = (Err KeyError, ["----hit----"]).
Proof.
  split; [reflexivity|]. split; [reflexivity|].
  exact (proj2 (X14_details_are_read_for_each_identifier sample_filter
                  sample_VENDOR_ADVISORY
                  (VDict [("category", VStr "no_fix_planned");
                          ("product_ids", VList [VStr "WID1:widget"])])
                  KeyError indexed eq_refl eq_refl)
           (VStr "WID1:widget") [] eq_refl).
Defined.

Lemma C10_witness :
  sample_filter (VList [VStr "WID1:widget"]) = Ok [VStr "WID1:widget"] /\
  remediation_step sample_filter sample_VENDOR_ADVISORY
    two_segment_unmarked_remediation indexed
  = (Err ValueError, []).
Proof.
  split; [reflexivity|].
  exact (proj1 (C10_marker_less_vendor_fix_of_two_segments_raises sample_filter
                  sample_VENDOR_ADVISORY indexed eq_refl)).
Defined.
